(** * CRP automation bot (app.js): the modal wizard and the GitHub upserts

    A shallow embedding of the handlers of [app.js] and the properties of
    the wizard they implement: the values the handlers read from a
    submitted view, the step state carried in [private_metadata], the
    calls issued to the GitHub content API and the dialogs acknowledged
    to Slack. *)

From Stdlib Require Import ZArith Lia.
From Stdlib Require Strings.String.
From Stdlib Require Import Strings.Ascii.
From stdpp Require Import base option list strings pretty gmap.

Local Open Scope string_scope.
Local Open Scope list_scope.
Local Open Scope Z_scope.

(** ** JavaScript strings and numbers

    A JS string is kept as its UTF-8 encoding, one [ascii] per byte, which
    is also how the literals of this file read.  The operations the
    handlers use ([||] on strings, [trim], [parseInt], template literals)
    are written on that encoding. *)

Module JS.

(** [s] is truthy: the empty string is the only falsy string. *)
Definition truthy (s : string) : bool :=
  match s with "" => false | _ => true end.

(** [a || b] where [a] may be [null]/[undefined] ([None]) or a string. *)
Definition or_default (a : option string) (b : string) : string :=
  match a with
  | Some s => if truthy s then s else b
  | None => b
  end.

Definition of_bytes (l : list nat) : string :=
  String.string_of_list_ascii (Ascii.ascii_of_nat <$> l).

(** WhiteSpace and LineTerminator code points of ECMAScript, as UTF-8:
    TAB LF VT FF CR SP, U+00A0, U+1680, U+2000..U+200A, U+2028, U+2029,
    U+202F, U+205F, U+3000, U+FEFF. *)
Definition white_space : list string :=
  (of_bytes <$> [[9]; [10]; [11]; [12]; [13]; [32]; [194; 160]; [225; 154; 128]])%nat
  ++ ((λ b, of_bytes [226; 128; b]) <$> seq 128 11)%nat
  ++ (of_bytes <$> [[226; 128; 168]; [226; 128; 169]; [226; 128; 175];
                    [226; 129; 159]; [227; 128; 128]; [239; 187; 191]])%nat.

Fixpoint strip_prefix (p s : string) : option string :=
  match p, s with
  | "", _ => Some s
  | String a p', String b s' =>
      if Ascii.eqb a b then strip_prefix p' s' else None
  | String _ _, "" => None
  end.

(** The rest of [s] after one leading member of [seqs], if it starts with one. *)
Fixpoint strip_one (seqs : list string) (s : string) : option string :=
  match seqs with
  | [] => None
  | p :: seqs' =>
      match strip_prefix p s with
      | Some r => Some r
      | None => strip_one seqs' s
      end
  end.

Fixpoint strip_all (fuel : nat) (seqs : list string) (s : string) : string :=
  match fuel with
  | O => s
  | S n =>
      match s with
      | "" => ""
      | _ => match strip_one seqs s with
             | Some r => strip_all n seqs r
             | None => s
             end
      end
  end.

Definition trimStart (s : string) : string :=
  strip_all (String.length s) white_space s.

Definition trimEnd (s : string) : string :=
  String.rev (strip_all (String.length s) (String.rev <$> white_space) (String.rev s)).

(** [String.prototype.trim] *)
Definition trim (s : string) : string := trimEnd (trimStart s).

(** Numbers.  The handlers only ever hold integral Numbers, NaN and the
    infinities ([parseInt] of a long digit string overflows to one). *)
Inductive number :=
  | NaN
  | Num (z : Z)
  | Inf (negative : bool).

(** The Number nearest to the integer [z] (round to nearest, ties to
    even, 53 significant bits, overflow from 2^1024). *)
Definition to_double (z : Z) : number :=
  let a := Z.abs z in
  if a <=? 2 ^ 53 then Num z
  else
    let e := Z.log2 a - 52 in
    let q := Z.shiftr a e in
    let r := a - Z.shiftl q e in
    let half := 2 ^ (e - 1) in
    let q' := if (half <? r) || ((r =? half) && Z.odd q) then q + 1 else q in
    let m := Z.shiftl q' e in
    if 2 ^ 1024 <=? m then Inf (z <? 0) else Num (Z.sgn z * m).

Definition is_digit (a : ascii) : bool :=
  let n := Ascii.nat_of_ascii a in ((48 <=? n) && (n <=? 57))%nat.

Definition digit_value (a : ascii) : Z := Z.of_nat (Ascii.nat_of_ascii a) - 48.

(** The longest prefix of decimal digits of [s]. *)
Fixpoint leading_digits (s : string) : list ascii :=
  match s with
  | String a s' => if is_digit a then a :: leading_digits s' else []
  | "" => []
  end.

Definition digits_value (ds : list ascii) : Z :=
  foldl (λ acc d, 10 * acc + digit_value d) 0 ds.

(** [parseInt(s, 10)]: leading white space is skipped, one sign is read,
    then the longest run of decimal digits; no digit gives NaN. *)
Definition parseInt (s : string) : number :=
  let S := trimStart s in
  let '(sign, rest) :=
    match S with
    | String "-" r => (-1, r)
    | String "+" r => (1, r)
    | _ => (1, S)
    end in
  match leading_digits rest with
  | [] => NaN
  | ds => to_double (sign * digits_value ds)
  end.

(** [x || 1] on a Number: NaN and zero are falsy. *)
Definition or_one (x : number) : number :=
  match x with
  | NaN | Num 0 => Num 1
  | _ => x
  end.

(** [Math.min(k, x)] and [Math.max(k, x)] for an integer constant [k]. *)
Definition Math_min (k : Z) (x : number) : number :=
  match x with
  | NaN => NaN
  | Num z => Num (Z.min k z)
  | Inf true => Inf true
  | Inf false => Num k
  end.

Definition Math_max (k : Z) (x : number) : number :=
  match x with
  | NaN => NaN
  | Num z => Num (Z.max k z)
  | Inf true => Num k
  | Inf false => Inf false
  end.

Section ToString.
(** Number::toString writes the shortest digits that read back as the
    same Number.  Below 2^54 every multiple of ten is a Number of its
    own, so an integer is written in full, in plain decimal.  From 2^54
    on the Numbers are four or more apart and the digits written can be
    fewer than those of the integer, filled up with zeros (2^54 + 8 is
    written 18014398509481990), and from 10^21 on they are in exponent
    notation; the standard leaves the last digit open there.  What is
    written from 2^54 on is left to the parameter [exponent_notation]. *)
Variable exponent_notation : Z → string.

Definition number_to_string (x : number) : string :=
  match x with
  | NaN => "NaN"
  | Inf false => "Infinity"
  | Inf true => "-Infinity"
  | Num z => if Z.abs z <? 2 ^ 54 then pretty z else exponent_notation z
  end.
End ToString.

(** The integers [i] visited by [for (let i = 1; i <= hi; i++)]; [None]
    when the loop never ends: [i++] no longer changes [i] at 2^53. *)
Definition loop_from_1 (hi : number) : option (list Z) :=
  match hi with
  | NaN | Inf true => Some []
  | Num z => if z <? 2 ^ 53 then Some (Z.of_nat <$> seq 1 (Z.to_nat z)) else None
  | Inf false => None
  end.

(** The most elements an array can have: a [push] that would take the
    length beyond throws a RangeError. *)
Definition Array_max_length : Z := 2 ^ 32 - 1.

(** Base64 of the bytes of [s], as [Buffer.from(s, 'utf8').toString('base64')]. *)
Definition b64_alphabet : string :=
  "ABCDEFGHIJKLMNOPQRSTUVWXYZabcdefghijklmnopqrstuvwxyz0123456789+/".

Definition b64_char (n : N) : ascii :=
  default "="%char (String.get (N.to_nat n) b64_alphabet).

Fixpoint b64_groups (bs : list N) : list ascii :=
  match bs with
  | [] => []
  | [a] =>
      [b64_char (a / 4); b64_char ((a mod 4) * 16); "="; "="]%char%N
  | [a; b] =>
      [b64_char (a / 4); b64_char ((a mod 4) * 16 + b / 16);
       b64_char ((b mod 16) * 4); "="%char]%N
  | a :: b :: c :: rest =>
      [b64_char (a / 4); b64_char ((a mod 4) * 16 + b / 16);
       b64_char ((b mod 16) * 4 + c / 64); b64_char (c mod 64)]%N
      ++ b64_groups rest
  end.

Definition base64 (s : string) : string :=
  String.string_of_list_ascii
    (b64_groups (Ascii.N_of_ascii <$> String.list_ascii_of_string s)).

End JS.

(** ** Data model *)

(** An exception value: Octokit's request errors carry the HTTP [status];
    every error has a [message]. *)
Record js_error := { status : option Z; message : string }.

(** One client of [CLIENTS_JSON]. *)
Record client_cfg := { owner : string; repo : string; testsPath : string }.

(** What [CLIENTS[key]] evaluates to when it is not [undefined]: an entry
    of the configuration, or a member inherited from [Object.prototype]
    (an object or function, so truthy, without [owner], [repo] or
    [testsPath]). *)
Inductive cfg_value :=
  | OwnCfg (c : client_cfg)
  | Inherited.

Definition Object_prototype_names : list string :=
  ["constructor"; "__defineGetter__"; "__defineSetter__"; "hasOwnProperty";
   "__lookupGetter__"; "__lookupSetter__"; "isPrototypeOf";
   "propertyIsEnumerable"; "toString"; "valueOf"; "__proto__"; "toLocaleString"].

Definition cfg_owner (c : cfg_value) : option string :=
  match c with OwnCfg c => Some (owner c) | Inherited => None end.
Definition cfg_repo (c : cfg_value) : option string :=
  match c with OwnCfg c => Some (repo c) | Inherited => None end.
Definition cfg_testsPath (c : cfg_value) : option string :=
  match c with OwnCfg c => Some (testsPath c) | Inherited => None end.

(** A string-or-undefined inside a template literal. *)
Definition tmpl (x : option string) : string := default "undefined" x.

(** The state of one input element of a submitted view: the text typed
    ([value]) and the value of the option picked ([selected_option.value]). *)
Record element_state := { value : option string; selected_option : option string }.

(** [view.state.values]: block id, then action id. *)
Abbreviation view_state := (gmap string (gmap string element_state)).

(** [x || undefined] (or [x || null]) for a string [x] that may be missing. *)
Definition truthy_opt (x : option string) : option string :=
  match x with
  | Some s => if JS.truthy s then Some s else None
  | None => None
  end.

(** [!!x] for a string or [null]. *)
Definition to_boolean (x : option string) : bool :=
  match x with
  | Some s => JS.truthy s
  | None => false
  end.

(** [getStateValue(state, blockId, actionId)]: a non-empty string or [null]. *)
Definition getStateValue (state : view_state) (blockId actionId : string)
  : option string :=
  let el := state !! blockId ≫= (.!! actionId) in
  match truthy_opt (el ≫= value) with
  | Some s => Some s
  | None => truthy_opt (el ≫= selected_option)
  end.

(** A number as [JSON.stringify] writes it and [JSON.parse] reads it back:
    NaN and the infinities are written [null]. *)
Inductive json_number :=
  | JNum (z : Z)
  | JNull.

Definition json_of_number (x : JS.number) : json_number :=
  match x with JS.Num z => JNum z | _ => JNull end.

(** The step state serialised into [private_metadata].  A field an object
    literal does not list is absent ([None]): [JSON.parse] of the string
    [JSON.stringify] wrote gives back the same fields. *)
Record step_state := {
  clientKey : string;
  testName : string;
  exists_ : option bool;
  count : option json_number
}.

(** The Number a destructured [count] compares as in [i <= count]. *)
Definition count_number (c : option json_number) : JS.number :=
  match c with
  | Some (JNum z) => JS.Num z
  | Some JNull => JS.Num 0
  | None => JS.NaN
  end.

(** Block Kit, as far as the dialogs use it. *)
Record button := { b_text : string; b_value : string; b_action_id : string }.

Inductive element :=
  | plain_text_input (action_id : string) (placeholder initial_value : option string)
      (multiline : bool).

Inductive block :=
  | input (block_id label : string) (el : element)
  | section (mrkdwn : string)
  | header (text : string)
  | actions (block_id : string) (elements : list button).

(** A modal view as the handlers build it. *)
Record view := {
  callback_id : string;
  private_metadata : option step_state;
  title : string;
  submit : option string;
  close : string;
  blocks : list block
}.

(** The view of a submission or of a button click, as Slack delivers it. *)
Record view_payload := {
  id : string;
  p_callback_id : string;
  p_private_metadata : option step_state;
  state : view_state
}.

(** The argument of [ack]. *)
Inductive ack_response :=
  | ack_empty
  | ack_errors (errors : list (string * string))
  | ack_update (v : view)
  | ack_push (v : view).

(** Requests to the GitHub content API.  [owner] and [repo] are
    [undefined] when the configuration value has none. *)
Record get_request := {
  g_owner : option string; g_repo : option string; g_path : string; g_ref : string
}.

Record put_request := {
  w_owner : option string; w_repo : option string; w_path : string;
  w_message : string; w_content : string; w_branch : string;
  w_sha : option string
}.

(** [res.data] of [repos.getContent]: a directory listing, an object with
    or without a [sha], or nothing. *)
Inductive content_data :=
  | data_array
  | data_object (sha : option string)
  | data_none.

(** What a handler does to the outside, in program order; a call is
    recorded with what it returned ([inl e], [Some e]: it threw [e]). *)
Inductive event :=
  | ev_getContent (req : get_request) (res : js_error + content_data)
  | ev_createOrUpdate (req : put_request) (res : option js_error)
  | ev_ack (r : ack_response)
  | ev_views_update (view_id : string) (v : view) (res : option js_error)
  | ev_console_error (label : string) (e : js_error).

(** How an [async] handler ends. *)
Inductive outcome (A : Type) :=
  | Returned (a : A)
  | Thrown (e : js_error)
  | Diverged.
Arguments Returned {A} a.
Arguments Thrown {A} e.
Arguments Diverged {A}.

(** ** Reading traces *)

(** The views a trace puts on screen. *)
Definition shown (ev : event) : option view :=
  match ev with
  | ev_ack (ack_update v) | ev_ack (ack_push v) | ev_views_update _ v _ => Some v
  | _ => None
  end.

(** The write requests of a trace, in order. *)
Definition write_of (ev : event) : option put_request :=
  match ev with
  | ev_createOrUpdate req _ => Some req
  | _ => None
  end.

Definition writes (t : list event) : list put_request := omap write_of t.

(** The error of a remote call that makes its caller fail: a failed
    write, or a failed read other than 404. *)
Definition failure (ev : event) : option js_error :=
  match ev with
  | ev_getContent _ (inl e) => if bool_decide (status e = Some 404) then None else Some e
  | ev_createOrUpdate _ (Some e) => Some e
  | _ => None
  end.

Definition is_remote_call (ev : event) : bool :=
  match ev with
  | ev_getContent _ _ | ev_createOrUpdate _ _ => true
  | _ => false
  end.

(** The revision marker a response of the content API stands for:
    the directory sentinel, the [sha] of a file, or none. *)
Definition marker_of (res : js_error + content_data) : option string :=
  match res with
  | inr data_array => Some "DIR"
  | inr (data_object (Some sha)) => if JS.truthy sha then Some sha else None
  | _ => None
  end.

(** The paths of [n] variations under [baseDir], JS before CSS. *)
Definition variation_paths (baseDir : string) (n : nat) : list string :=
  (Z.of_nat <$> seq 1 n) ≫=
    (λ i, [baseDir +:+ "/var-" +:+ pretty i +:+ ".js";
           baseDir +:+ "/var-" +:+ pretty i +:+ ".css"]).

(** The fields of the snippets dialog for [c] variations: a header, a JS
    field and a CSS field each. *)
Definition snippet_fields (c : Z) : list block :=
  (Z.of_nat <$> seq 1 (Z.to_nat c)) ≫=
    (λ i, [header ("Variation " +:+ pretty i);
           input ("js_" +:+ pretty i) ("JS snippet " +:+ pretty i)
             (plain_text_input "val" None None true);
           input ("css_" +:+ pretty i) ("CSS snippet " +:+ pretty i)
             (plain_text_input "val" None None true)]).

(** Every write of [t] carries the marker of the latest read of its path:
    there is an earlier read of the same path, no read of that path in
    between, and the write's precondition [sha] is absent when that read
    gave no marker and is the marker itself otherwise. *)
Definition conditioned_on_fetch (t : list event) : Prop :=
  ∀ (j : nat) wreq wres, t !! j = Some (ev_createOrUpdate wreq wres) →
    ∃ (i : nat) greq gres,
      (i < j)%nat ∧ t !! i = Some (ev_getContent greq gres) ∧
      g_path greq = w_path wreq ∧
      (∀ (k : nat) greq' gres', (i < k < j)%nat →
         t !! k = Some (ev_getContent greq' gres') → g_path greq' ≠ w_path wreq) ∧
      match marker_of gres with
      | None => w_sha wreq = None
      | Some m => w_sha wreq = Some m
      end.

(** Sequential upserts of the paths [ps]: for each path a read, then a
    write conditioned on the marker read, until the list is done (the
    result is [None]) or a call fails (the result is its error). *)
Inductive upserts : list string → list event → option js_error → Prop :=
  | upserts_done : upserts [] [] None
  | upserts_read_failed p ps greq e :
      g_path greq = p →
      status e ≠ Some 404 →
      upserts (p :: ps) [ev_getContent greq (inl e)] (Some e)
  | upserts_write_failed p ps greq gres wreq e :
      g_path greq = p →
      failure (ev_getContent greq gres) = None →
      w_path wreq = p →
      w_sha wreq = marker_of gres →
      upserts (p :: ps) [ev_getContent greq gres; ev_createOrUpdate wreq (Some e)] (Some e)
  | upserts_next p ps greq gres wreq t r :
      g_path greq = p →
      failure (ev_getContent greq gres) = None →
      w_path wreq = p →
      w_sha wreq = marker_of gres →
      upserts ps t r →
      upserts (p :: ps) (ev_getContent greq gres :: ev_createOrUpdate wreq None :: t) r.

(** The calls of the update commit on the paths [p1] and [p2]: both
    markers are read, then both files are written, each write conditioned
    on the marker read for its path, until a call fails. *)
Inductive fetch_then_write (p1 p2 : string) : list event → option js_error → Prop :=
  | ftw_read1_failed g1 e :
      g_path g1 = p1 → status e ≠ Some 404 →
      fetch_then_write p1 p2 [ev_getContent g1 (inl e)] (Some e)
  | ftw_read2_failed g1 r1 g2 e :
      g_path g1 = p1 → failure (ev_getContent g1 r1) = None →
      g_path g2 = p2 → status e ≠ Some 404 →
      fetch_then_write p1 p2 [ev_getContent g1 r1; ev_getContent g2 (inl e)] (Some e)
  | ftw_write1_failed g1 r1 g2 r2 w1 e :
      g_path g1 = p1 → failure (ev_getContent g1 r1) = None →
      g_path g2 = p2 → failure (ev_getContent g2 r2) = None →
      w_path w1 = p1 → w_sha w1 = marker_of r1 →
      fetch_then_write p1 p2
        [ev_getContent g1 r1; ev_getContent g2 r2; ev_createOrUpdate w1 (Some e)] (Some e)
  | ftw_write2 g1 r1 g2 r2 w1 w2 res :
      g_path g1 = p1 → failure (ev_getContent g1 r1) = None →
      g_path g2 = p2 → failure (ev_getContent g2 r2) = None →
      w_path w1 = p1 → w_sha w1 = marker_of r1 →
      w_path w2 = p2 → w_sha w2 = marker_of r2 →
      fetch_then_write p1 p2
        [ev_getContent g1 r1; ev_getContent g2 r2;
         ev_createOrUpdate w1 None; ev_createOrUpdate w2 res] res.

(** The remote calls [t] stop at the first one that fails, with [e]. *)
Definition stops_at_failure (t : list event) (e : js_error) : Prop :=
  ∃ pre ev, t = pre ++ [ev] ∧ failure ev = Some e ∧ Forall (λ ev', failure ev' = None) pre.

(** ** The program *)

(** The outside of the process: the state [St] of GitHub and Slack and
    how they answer, left arbitrary ([octokit_getContent] returns
    [res.data] or throws, the other two calls return or throw), the
    environment ([process.env.GITHUB_DEFAULT_BRANCH], the parsed
    [CLIENTS_JSON]) and the digits the engine writes for Numbers from
    2^54 on. *)
Class Outside (St : Type) := {
  octokit_getContent : get_request → St → (js_error + content_data) * St;
  octokit_createOrUpdateFileContents : put_request → St → option js_error * St;
  client_views_update : string → view → St → option js_error * St;
  GITHUB_DEFAULT_BRANCH : option string;
  CLIENTS : gmap string client_cfg;
  exponent_notation : Z → string
}.

Section App.
Context {St : Type} {outside : Outside St}.

Definition DEFAULT_BRANCH : string := JS.or_default GITHUB_DEFAULT_BRANCH "main".

(** [CLIENTS[key]], through the prototype chain of the parsed object. *)
Definition CLIENTS_get (key : string) : option cfg_value :=
  match CLIENTS !! key with
  | Some c => Some (OwnCfg c)
  | None => if bool_decide (key ∈ Object_prototype_names) then Some Inherited else None
  end.

Definition num_str (x : JS.number) : string := JS.number_to_string exponent_notation x.

Record world := { remote : St; trace : list event }.

Definition M (A : Type) : Type := world → outcome A * world.

#[global] Instance M_ret : MRet M := λ A a w, (Returned a, w).
#[global] Instance M_bind : MBind M := λ A B f m w,
  match m w with
  | (Returned a, w') => f a w'
  | (Thrown e, w') => (Thrown e, w')
  | (Diverged, w') => (Diverged, w')
  end.

Definition throw {A} (e : js_error) : M A := λ w, (Thrown e, w).
Definition diverge {A} : M A := λ w, (Diverged, w).

(** [try { body } catch (e) { handler e }] *)
Definition try_catch {A} (body : M A) (handler : js_error → M A) : M A := λ w,
  match body w with
  | (Thrown e, w') => handler e w'
  | r => r
  end.

Definition emit (ev : event) : M unit := λ w,
  (Returned (), {| remote := remote w; trace := trace w ++ [ev] |}).

Definition ack (r : ack_response) : M unit := emit (ev_ack r).

Definition getContent (req : get_request) : M content_data := λ w,
  let '(r, s) := octokit_getContent req (remote w) in
  let w' := {| remote := s; trace := trace w ++ [ev_getContent req r] |} in
  match r with
  | inl e => (Thrown e, w')
  | inr d => (Returned d, w')
  end.

Definition createOrUpdateFileContents (req : put_request) : M unit := λ w,
  let '(r, s) := octokit_createOrUpdateFileContents req (remote w) in
  let w' := {| remote := s; trace := trace w ++ [ev_createOrUpdate req r] |} in
  match r with
  | Some e => (Thrown e, w')
  | None => (Returned (), w')
  end.

Definition views_update (view_id : string) (v : view) : M unit := λ w,
  let '(r, s) := client_views_update view_id v (remote w) in
  let w' := {| remote := s; trace := trace w ++ [ev_views_update view_id v r] |} in
  match r with
  | Some e => (Thrown e, w')
  | None => (Returned (), w')
  end.

(** [githubGetFileSha]: ['DIR'] for a directory, the [sha] of a file,
    [null] when there is none or the path is not found (404); any other
    failure is thrown again. *)
Definition githubGetFileSha (o r : option string) (path ref : string)
  : M (option string) :=
  try_catch
    (d ← getContent {| g_owner := o; g_repo := r; g_path := path; g_ref := ref |};
     mret (match d with
           | data_array => Some "DIR"
           | data_object sha => truthy_opt sha
           | data_none => None
           end))
    (λ e, if bool_decide (status e = Some 404) then mret None else throw e).

(** [githubWriteFile]; [sha = None] is [undefined]: no precondition. *)
Definition githubWriteFile (o r : option string) (path content message branch : string)
    (sha : option string) : M unit :=
  createOrUpdateFileContents
    {| w_owner := o; w_repo := r; w_path := path; w_message := message;
       w_content := JS.base64 content; w_branch := branch; w_sha := sha |}.

Definition SyntaxError : js_error :=
  {| status := None; message := "Unexpected end of JSON input" |}.

Definition TypeError (prop : string) : js_error :=
  {| status := None;
     message := "Cannot read properties of undefined (reading '" +:+ prop +:+ "')" |}.

(** [JSON.parse(view.private_metadata)]; an empty [private_metadata] throws. *)
Definition JSON_parse (m : option step_state) : M step_state :=
  match m with
  | Some st => mret st
  | None => throw SyntaxError
  end.

(** [cfg.prop], which throws when [cfg] is [undefined]. *)
Definition cfg_get (cfg : option cfg_value) (prop : string)
    (proj : cfg_value → option string) : M (option string) :=
  match cfg with
  | Some c => mret (proj c)
  | None => throw (TypeError prop)
  end.

Definition nl : string := String "010" "".

(** *** 2) Submit first modal: check GitHub, then push the next modal *)

Definition check_failed_view (e : js_error) : view :=
  {| callback_id := "noop"; private_metadata := None;
     title := "CRP Automation"; submit := None; close := "Close";
     blocks := [section ("❌ GitHub check failed:" +:+ nl +:+ "`" +:+ message e +:+ "`")] |}.

Definition update_or_create_view (key name : string) (exists_flag : bool)
    (dirPath : string) : view :=
  {| callback_id := "crp_update_or_create";
     private_metadata :=
       Some {| clientKey := key; testName := name;
               exists_ := Some exists_flag; count := None |};
     title := "CRP Automation"; submit := None; close := "Cancel";
     blocks :=
       [section (if exists_flag
                 then "*Test found:* `" +:+ dirPath +:+ "`" +:+ nl
                      +:+ "What would you like to do?"
                 else "*No existing test* at `" +:+ dirPath +:+ "`.");
        actions "choice_block"
          ({| b_text := "Create New"; b_value := "create";
              b_action_id := "choose_create" |}
           :: (if exists_flag
               then [{| b_text := "Update Existing"; b_value := "update";
                        b_action_id := "choose_update" |}]
               else []))] |}.

Definition crp_pick_client_test (view : view_payload) : M unit :=
  let clientKey := getStateValue (state view) "client_block" "client_select" in
  let testName :=
    JS.trim (JS.or_default (getStateValue (state view) "testname_block" "test_name") "") in
  match clientKey, JS.truthy testName with
  | Some key, true =>
      match CLIENTS_get key with
      | None => ack (ack_errors [("client_block", "Unknown client in configuration.")])
      | Some cfg =>
          let dirPath := tmpl (cfg_testsPath cfg) +:+ "/" +:+ testName in
          r ← try_catch
                (sha ← githubGetFileSha (cfg_owner cfg) (cfg_repo cfg) dirPath DEFAULT_BRANCH;
                 mret (Some (to_boolean sha)))
                (λ e, ack (ack_update (check_failed_view e));; mret None);
          match r with
          | None => mret ()
          | Some exists_flag =>
              ack (ack_push (update_or_create_view key testName exists_flag dirPath))
          end
      end
  | _, _ =>
      ack (ack_errors
             ((if clientKey is Some _ then []
               else [("client_block", "Please select a client.")])
              ++ (if JS.truthy testName then []
                  else [("testname_block", "Please enter a test name.")])))
  end.

(** *** 3a) Choose "Create New": ask the number of variations *)

Definition variation_count_view (meta : option step_state) : view :=
  {| callback_id := "crp_collect_variation_count";
     private_metadata := meta;
     title := "Create New Test"; submit := Some "Continue"; close := "Cancel";
     blocks :=
       [input "varcount_block" "Number of variations (1-5)"
          (plain_text_input "var_count" None (Some "1") false)] |}.

Definition choose_create (body_view : view_payload) : M unit :=
  ack ack_empty;;
  try_catch
    (views_update (id body_view) (variation_count_view (p_private_metadata body_view)))
    (λ e, emit (ev_console_error "choose_create update error:" e)).

(** The three blocks of variation [i]. *)
Definition variation_blocks (i : Z) : list block :=
  let n := num_str (JS.Num i) in
  [header ("Variation " +:+ n);
   input ("js_" +:+ n) ("JS snippet " +:+ n) (plain_text_input "val" None None true);
   input ("css_" +:+ n) ("CSS snippet " +:+ n) (plain_text_input "val" None None true)].

Definition snippets_view (key name : string) (cnt : JS.number) (blocks : list block)
  : view :=
  {| callback_id := "crp_create_commit";
     private_metadata :=
       Some {| clientKey := key; testName := name; exists_ := None;
               count := Some (json_of_number cnt) |};
     title := "New Test Snippets"; submit := Some "Create"; close := "Cancel";
     blocks := blocks |}.

(** [Math.max(1, Math.min(5, parseInt(raw, 10) || 1))] *)
Definition clamp_count (raw : string) : JS.number :=
  JS.Math_max 1 (JS.Math_min 5 (JS.or_one (JS.parseInt raw))).

Definition crp_collect_variation_count (view : view_payload) : M unit :=
  st ← JSON_parse (p_private_metadata view);
  let raw := JS.or_default (getStateValue (state view) "varcount_block" "var_count") "1" in
  let cnt := clamp_count raw in
  match JS.loop_from_1 cnt with
  | None => diverge
  | Some idx =>
      let blocks := idx ≫= variation_blocks in
      ack (ack_update (snippets_view (clientKey st) (testName st) cnt blocks))
  end.

(** *** 3b) Submit snippets: write to GitHub, then show the result *)

Record file_op := { path : string; content : string }.

(** [${count}] for the destructured [count]. *)
Definition count_str (c : option json_number) : string :=
  match c with
  | Some (JNum z) => num_str (JS.Num z)
  | Some JNull => "null"
  | None => "undefined"
  end.

Definition created_view (st : step_state) : view :=
  {| callback_id := "noop"; private_metadata := None;
     title := "Created ✅"; submit := None; close := "Close";
     blocks :=
       [section ("Created *" +:+ testName st +:+ "* for *" +:+ clientKey st
                 +:+ "* with " +:+ count_str (count st) +:+ " variation(s).")] |}.

Definition error_view (what : string) (e : js_error) : view :=
  {| callback_id := "noop"; private_metadata := None;
     title := "Error"; submit := None; close := "Close";
     blocks := [section ("❌ " +:+ what +:+ nl +:+ "`" +:+ message e +:+ "`")] |}.

(** One turn of the loop that fills [ops]. *)
Definition variation_ops (view : view_payload) (st : step_state)
    (cfg : option cfg_value) (i : Z) : M (list file_op) :=
  let n := num_str (JS.Num i) in
  let js := JS.or_default (getStateValue (state view) ("js_" +:+ n) "val") "" in
  let css := JS.or_default (getStateValue (state view) ("css_" +:+ n) "val") "" in
  tp ← cfg_get cfg "testsPath" cfg_testsPath;
  let base := tmpl tp +:+ "/" +:+ testName st +:+ "/var-" +:+ n in
  mret [{| path := base +:+ ".js"; content := js |};
        {| path := base +:+ ".css"; content := css |}].

(** The loop that fills [ops], the array as a list.  The list is the
    array as long as its two elements a turn stay within
    [JS.Array_max_length], that is for every count below 2^31; the
    dialogs of the flow give counts from 1 to 5. *)
Fixpoint collect_ops (view : view_payload) (st : step_state)
    (cfg : option cfg_value) (idx : list Z) : M (list file_op) :=
  match idx with
  | [] => mret []
  | i :: idx' =>
      ops ← variation_ops view st cfg i;
      rest ← collect_ops view st cfg idx';
      mret (ops ++ rest)%list
  end.

(** [for (const op of ops)]: fetch the marker of the path, then write. *)
Fixpoint write_ops (st : step_state) (cfg : option cfg_value) (ops : list file_op)
  : M unit :=
  match ops with
  | [] => mret ()
  | op :: rest =>
      o ← cfg_get cfg "owner" cfg_owner;
      r ← cfg_get cfg "repo" cfg_repo;
      sha ← githubGetFileSha o r (path op) DEFAULT_BRANCH;
      githubWriteFile o r (path op) (content op)
        ("CRP: create " +:+ testName st +:+ " (" +:+ clientKey st +:+ ") -> " +:+ path op)
        DEFAULT_BRANCH (truthy_opt sha);;
      write_ops st cfg rest
  end.

Definition crp_create_commit (view : view_payload) : M unit :=
  st ← JSON_parse (p_private_metadata view);
  let cfg := CLIENTS_get (clientKey st) in
  match JS.loop_from_1 (count_number (count st)) with
  | None => diverge
  | Some idx =>
      ops ← collect_ops view st cfg idx;
      try_catch
        (write_ops st cfg ops;;
         ack (ack_update (created_view st)))
        (λ e, ack (ack_update (error_view "GitHub error creating files:" e)))
  end.

(** *** 4) Choose "Update Existing": capture the inputs *)

Definition update_view (meta : option step_state) (baseDir : string) : view :=
  {| callback_id := "crp_update_commit";
     private_metadata := meta;
     title := "Update Existing Test"; submit := Some "Update"; close := "Cancel";
     blocks :=
       [section ("Updating files under `" +:+ baseDir +:+ "` (default: var-1)");
        input "var_id" "Variation number" (plain_text_input "val" None (Some "1") false);
        input "u_js" "New JS snippet" (plain_text_input "val" None None true);
        input "u_css" "New CSS snippet" (plain_text_input "val" None None true)] |}.

Definition choose_update (body_view : view_payload) : M unit :=
  ack ack_empty;;
  st ← JSON_parse (p_private_metadata body_view);
  let cfg := CLIENTS_get (clientKey st) in
  tp ← cfg_get cfg "testsPath" cfg_testsPath;
  let baseDir := tmpl tp +:+ "/" +:+ testName st in
  views_update (id body_view) (update_view (p_private_metadata body_view) baseDir).

Definition updated_view (st : step_state) (v : JS.number) : view :=
  {| callback_id := "noop"; private_metadata := None;
     title := "Updated ✅"; submit := None; close := "Close";
     blocks :=
       [section ("Updated *" +:+ testName st +:+ "* variation *" +:+ num_str v
                 +:+ "* for *" +:+ clientKey st +:+ "*.")] |}.

Definition crp_update_commit (view : view_payload) : M unit :=
  st ← JSON_parse (p_private_metadata view);
  let cfg := CLIENTS_get (clientKey st) in
  let v := JS.parseInt (JS.or_default (getStateValue (state view) "var_id" "val") "1") in
  let js := JS.or_default (getStateValue (state view) "u_js" "val") "" in
  let css := JS.or_default (getStateValue (state view) "u_css" "val") "" in
  tp ← cfg_get cfg "testsPath" cfg_testsPath;
  let jsPath := tmpl tp +:+ "/" +:+ testName st +:+ "/var-" +:+ num_str v +:+ ".js" in
  let cssPath := tmpl tp +:+ "/" +:+ testName st +:+ "/var-" +:+ num_str v +:+ ".css" in
  try_catch
    (o ← cfg_get cfg "owner" cfg_owner;
     r ← cfg_get cfg "repo" cfg_repo;
     jsSha ← githubGetFileSha o r jsPath DEFAULT_BRANCH;
     cssSha ← githubGetFileSha o r cssPath DEFAULT_BRANCH;
     githubWriteFile o r jsPath js
       ("CRP: update " +:+ testName st +:+ " var-" +:+ num_str v +:+ ".js")
       DEFAULT_BRANCH (truthy_opt jsSha);;
     githubWriteFile o r cssPath css
       ("CRP: update " +:+ testName st +:+ " var-" +:+ num_str v +:+ ".css")
       DEFAULT_BRANCH (truthy_opt cssSha);;
     ack (ack_update (updated_view st v)))
    (λ e, ack (ack_update (error_view "GitHub update failed:" e))).

(** *** Routing: [app.view(callback_id, ...)] and [app.action(action_id, ...)] *)

Definition view_handler (callback : string) : option (view_payload → M unit) :=
  if bool_decide (callback = "crp_pick_client_test") then Some crp_pick_client_test
  else if bool_decide (callback = "crp_collect_variation_count")
       then Some crp_collect_variation_count
  else if bool_decide (callback = "crp_create_commit") then Some crp_create_commit
  else if bool_decide (callback = "crp_update_commit") then Some crp_update_commit
  else None.

Definition action_handler (action : string) : option (view_payload → M unit) :=
  if bool_decide (action = "choose_create") then Some choose_create
  else if bool_decide (action = "choose_update") then Some choose_update
  else None.

(** *** The dialog on screen and what the user does with it *)

Inductive user_action :=
  | Submit (values : view_state)
  | Click (action : string).

Definition button_ids (v : view) : list string :=
  blocks v ≫= (λ b, match b with
                    | actions _ els => b_action_id <$> els
                    | _ => []
                    end).

Definition payload (view_id : string) (v : view) (values : view_state) : view_payload :=
  {| id := view_id; p_callback_id := callback_id v;
     p_private_metadata := private_metadata v; state := values |}.

(** The handler Bolt runs for an action on the view [v], if any: a
    submission needs a submit button and a handler for the callback id,
    a click a button of the view and a handler for its action id. *)
Definition dispatch (view_id : string) (v : view) (a : user_action) : option (M unit) :=
  match a with
  | Submit values =>
      if submit v is Some _
      then (λ h, h (payload view_id v values)) <$> view_handler (callback_id v)
      else None
  | Click action =>
      if bool_decide (action ∈ button_ids v)
      then (λ h, h (payload view_id v ∅)) <$> action_handler action
      else None
  end.

(** A dialog that ends the flow: no state, nothing to submit, no button. *)
Definition terminal (v : view) : Prop :=
  callback_id v = "noop" ∧ private_metadata v = None ∧ submit v = None ∧
  button_ids v = [].

(** The end of a handler's trace: nothing, or one terminal dialog. *)
Definition terminal_tail (tail : list event) : Prop :=
  tail = [] ∨ ∃ dialog, tail = [ev_ack (ack_update dialog)] ∧ terminal dialog.

(** What a run of [m] from [w] adds to the trace. *)
Definition events_of {A} (m : M A) (w : world) : list event :=
  drop (length (trace w)) (trace (m w).2).

End App.

(** ** 1) Slash command: the first modal *)

Module Entry.

(** An option of a select menu. *)
Record option_object := { o_text : string; o_value : string }.

(** The elements and input blocks of the first modal. *)
Inductive element :=
  | static_select (action_id placeholder : string) (options : list option_object)
  | plain_text_input (action_id placeholder : string).

Record input_block := { block_id : string; label : string; el : element }.

Record modal := {
  callback_id : string;
  title : string;
  submit : string;
  close : string;
  blocks : list input_block
}.

(** [keys] lists the own keys of the parsed configuration, as
    [Object.keys(CLIENTS)] gives them, in whatever order the object has
    them. *)
Definition Object_keys (clients : gmap string client_cfg) (keys : list string) : Prop :=
  NoDup keys ∧ ∀ k, k ∈ keys ↔ is_Some (clients !! k).

(** [clientOptions], from [Object.keys(CLIENTS)]. *)
Definition clientOptions (keys : list string) : list option_object :=
  (λ k, {| o_text := k; o_value := k |}) <$> keys.

(** The view the command opens. *)
Definition crp_view (keys : list string) : modal :=
  {| callback_id := "crp_pick_client_test";
     title := "CRP Automation"; submit := "Continue"; close := "Cancel";
     blocks :=
       [{| block_id := "client_block"; label := "Choose client";
           el := static_select "client_select" "Select a client" (clientOptions keys) |};
        {| block_id := "testname_block"; label := "Test name";
           el := plain_text_input "test_name" "e.g. hero-banner-cta" |}] |}.

(** What the command handler does: [ack()], then [views.open] with the
    trigger of the command. *)
Inductive command_event :=
  | cmd_ack
  | cmd_views_open (trigger_id : string) (v : modal).

Definition crp_command (keys : list string) (trigger_id : string) : list command_event :=
  [cmd_ack; cmd_views_open trigger_id (crp_view keys)].

(** The options a modal offers, over all its select menus. *)
Definition options_of (v : modal) : list option_object :=
  blocks v ≫= (λ b, match el b with
                    | static_select _ _ options => options
                    | plain_text_input _ _ => []
                    end).

(** [view.state.values] as Slack fills it for a submission of [v]: under
    the block id and the action id of each input, the option picked in a
    select menu and the text typed in a text input. *)
Definition submitted_state (v : modal) (picked typed : option string) : view_state :=
  foldr (λ b st,
           match el b with
           | static_select action_id _ _ =>
               <[block_id b := {[ action_id := {| value := None; selected_option := picked |} ]}]> st
           | plain_text_input action_id _ =>
               <[block_id b := {[ action_id := {| value := typed; selected_option := None |} ]}]> st
           end)
        ∅ (blocks v).

End Entry.

(** ** Scenarios: a client, views as a user fills them, scripted remotes *)

Module Scenario.

Definition acme : client_cfg :=
  {| owner := "acme-org"; repo := "site"; testsPath := "acme-tests" |}.

Definition not_found : js_error := {| status := Some 404; message := "Not Found" |}.
Definition server_error : js_error := {| status := Some 500; message := "Server Error" |}.
Definition conflict : js_error := {| status := Some 409; message := "sha does not match" |}.

(** A remote whose state counts the calls made so far: reads answer
    [reads path], the write that comes as call number [n] fails when
    [write_fails n]. *)
Definition scripted (reads : string → js_error + content_data)
    (write_fails : nat → option js_error) : Outside nat :=
  {| octokit_getContent req n := (reads (g_path req), S n);
     octokit_createOrUpdateFileContents req n := (write_fails n, S n);
     client_views_update _ _ n := (None, S n);
     GITHUB_DEFAULT_BRANCH := None;
     CLIENTS := {[ "acme" := acme ]};
     exponent_notation := λ _, "" |}.

(** Nothing exists yet, every write succeeds. *)
Definition fresh : Outside nat := scripted (λ _, inl not_found) (λ _, None).

(** The test directory exists and so do its files. *)
Definition existing : Outside nat :=
  scripted (λ p, if bool_decide (p = "acme-tests/hero-cta") then inr data_array
                 else inr (data_object (Some "3f2a")))
           (λ _, None).

(** GitHub is down. *)
Definition outage : Outside nat := scripted (λ _, inl server_error) (λ _, None).

(** Nothing exists yet and the second remote call, the first write, is refused. *)
Definition refused : Outside nat :=
  scripted (λ _, inl not_found) (λ n, if bool_decide (n = 1%nat) then Some conflict else None).

Definition start : @world nat := {| remote := 0%nat; trace := [] |}.

Definition text_field (s : string) : element_state :=
  {| value := Some s; selected_option := None |}.
Definition picked (s : string) : element_state :=
  {| value := None; selected_option := Some s |}.

(** The first modal with client [c] picked and test name [n] typed. *)
Definition step1 (c n : string) : view_payload :=
  {| id := "V1"; p_callback_id := "crp_pick_client_test"; p_private_metadata := None;
     state := {[ "client_block" := {[ "client_select" := picked c ]};
                 "testname_block" := {[ "test_name" := text_field n ]} ]} |}.

Definition hero (e : option bool) (c : option json_number) : step_state :=
  {| clientKey := "acme"; testName := "hero-cta"; exists_ := e; count := c |}.

(** The count modal submitted with [raw] typed. *)
Definition count_step (raw : string) : view_payload :=
  {| id := "V2"; p_callback_id := "crp_collect_variation_count";
     p_private_metadata := Some (hero (Some false) None);
     state := {[ "varcount_block" := {[ "var_count" := text_field raw ]} ]} |}.

(** The snippets modal of a test with one variation. *)
Definition create_step : view_payload :=
  {| id := "V2"; p_callback_id := "crp_create_commit";
     p_private_metadata := Some (hero None (Some (JNum 1)));
     state := {[ "js_1" := {[ "val" := text_field "go()" ]};
                 "css_1" := {[ "val" := text_field "a{}" ]} ]} |}.

(** The update modal submitted with [raw] typed as variation number. *)
Definition update_step (raw : string) : view_payload :=
  {| id := "V2"; p_callback_id := "crp_update_commit";
     p_private_metadata := Some (hero (Some true) None);
     state := {[ "var_id" := {[ "val" := text_field raw ]};
                 "u_js" := {[ "val" := text_field "go()" ]};
                 "u_css" := {[ "val" := text_field "a{}" ]} ]} |}.

End Scenario.

(** Further submissions: the update modal with the variation number left
    blank, and a snippets modal whose state has no count. *)
Module Scenario2.
Import Scenario.

Definition update_step_blank : view_payload :=
  {| id := "V2"; p_callback_id := "crp_update_commit";
     p_private_metadata := Some (hero (Some true) None);
     state := {[ "var_id" := {[ "val" := {| value := None; selected_option := None |} ]};
                 "u_js" := {[ "val" := text_field "go()" ]};
                 "u_css" := {[ "val" := text_field "a{}" ]} ]} |}.

Definition create_step_without_count : view_payload :=
  {| id := "V2"; p_callback_id := "crp_create_commit";
     p_private_metadata := Some (hero (Some false) None);
     state := ∅ |}.

(** The first modal with nothing picked and a blank test name. *)
Definition step1_blank : view_payload :=
  {| id := "V1"; p_callback_id := "crp_pick_client_test"; p_private_metadata := None;
     state := {[ "client_block" :=
                   {[ "client_select" := {| value := None; selected_option := None |} ]};
                 "testname_block" := {[ "test_name" := text_field "   " ]} ]} |}.

(** A configuration with a client under the empty identifier. *)
Definition anonymous : Outside nat :=
  {| octokit_getContent req n := (inl not_found, S n);
     octokit_createOrUpdateFileContents req n := (None, S n);
     client_views_update _ _ n := (None, S n);
     GITHUB_DEFAULT_BRANCH := Some "";
     CLIENTS := {[ "" := acme ]};
     exponent_notation := λ _, "" |}.

End Scenario2.

(** ** Vocabulary for whole runs *)

(** The acknowledgements of a trace, in order. *)
Definition ack_of (ev : event) : option ack_response :=
  match ev with
  | ev_ack r => Some r
  | _ => None
  end.

Definition acks (t : list event) : list ack_response := omap ack_of t.

(** The read requests of a trace, in order. *)
Definition read_of (ev : event) : option get_request :=
  match ev with
  | ev_getContent req _ => Some req
  | _ => None
  end.

Definition reads (t : list event) : list get_request := omap read_of t.

Section Runs.
Context {St : Type} {outside : Outside St}.

(** Every event a run of [m] adds to the trace satisfies [P]. *)
Definition emits {A} (P : event → Prop) (m : @M St A) : Prop :=
  ∀ w : @world St, ∃ t, trace (m w).2 = trace w ++ t ∧ Forall P t.

(** A remote call, if [ev] is one, goes to the repository of the
    configuration value [cfg] and to the default branch. *)
Definition call_for (cfg : cfg_value) (ev : event) : Prop :=
  match ev with
  | ev_getContent req _ =>
      g_owner req = cfg_owner cfg ∧ g_repo req = cfg_repo cfg ∧ g_ref req = DEFAULT_BRANCH
  | ev_createOrUpdate req _ =>
      w_owner req = cfg_owner cfg ∧ w_repo req = cfg_repo cfg ∧
      w_branch req = DEFAULT_BRANCH
  | _ => True
  end.

End Runs.

(** ** Properties *)

Example parseInt_9 : JS.parseInt "9" = JS.Num 9.
Proof. reflexivity. Qed.
Example parseInt_px : JS.parseInt "  42px" = JS.Num 42.
Proof. reflexivity. Qed.
Example parseInt_neg : JS.parseInt "-3" = JS.Num (-3).
Proof. reflexivity. Qed.
Example parseInt_abc : JS.parseInt "abc" = JS.NaN.
Proof. reflexivity. Qed.
Example parseInt_round : JS.parseInt "9007199254740993" = JS.Num 9007199254740992.
Proof. vm_compute. reflexivity. Qed.
Example trim_ex : JS.trim "  hero-cta 	" = "hero-cta".
Proof. vm_compute. reflexivity. Qed.
Example base64_ex : JS.base64 "Many" = "TWFueQ==".
Proof. vm_compute. reflexivity. Qed.

Section Properties.
Context {St : Type} {outside : Outside St}.

(** Running the monad. *)
Lemma run_bind {A B} (m : M A) (f : A → M B) (w : @world St) :
  (m ≫= f) w =
    match m w with
    | (Returned a, w') => f a w'
    | (Thrown e, w') => (@Thrown B e, w')
    | (Diverged, w') => (@Diverged B, w')
    end.
Proof. reflexivity. Qed.

Lemma run_ret {A} (a : A) (w : @world St) : mret (M := M) a w = (Returned a, w).
Proof. reflexivity. Qed.

Lemma run_ret_bind {A B} (a : A) (f : A → M B) (w : @world St) :
  (mret a ≫= f) w = f a w.
Proof. reflexivity. Qed.

Lemma run_throw {A} (e : js_error) (w : @world St) : throw (A := A) e w = (Thrown e, w).
Proof. reflexivity. Qed.

Lemma run_emit (ev : event) (w : @world St) :
  emit ev w = (Returned (), {| remote := remote w; trace := trace w ++ [ev] |}).
Proof. reflexivity. Qed.

Lemma num_str_small z : Z.abs z < 2 ^ 54 → num_str (JS.Num z) = pretty z.
Proof.
  intros Hz. unfold num_str. cbn [JS.number_to_string].
  destruct (Z.ltb_spec (Z.abs z) (2 ^ 54)); [done | lia].
Qed.

Lemma variation_blocks_small i :
  Z.abs i < 2 ^ 54 →
  variation_blocks i =
    [header ("Variation " +:+ pretty i);
     input ("js_" +:+ pretty i) ("JS snippet " +:+ pretty i)
       (plain_text_input "val" None None true);
     input ("css_" +:+ pretty i) ("CSS snippet " +:+ pretty i)
       (plain_text_input "val" None None true)].
Proof. intros Hi. unfold variation_blocks. by rewrite num_str_small. Qed.

Lemma bind_ext_Forall {A B} (f g : A → list B) (l : list A) :
  Forall (λ x, f x = g x) l → l ≫= f = l ≫= g.
Proof. induction 1 as [|x l Hx _ IH]; [done|]. cbn. by rewrite Hx, IH. Qed.

Lemma seq_Z_bounds (n : nat) :
  Forall (λ i : Z, 1 ≤ i ≤ Z.of_nat n) (Z.of_nat <$> seq 1 n).
Proof.
  apply Forall_forall. intros i Hi.
  apply list_elem_of_fmap in Hi as (k & -> & Hk).
  apply elem_of_seq in Hk. lia.
Qed.

(** The clamp of the count step, case by case on what [parseInt] gives. *)
Lemma clamp_count_cases raw :
  ∃ c : Z,
    clamp_count raw = JS.Num c ∧ 1 ≤ c ≤ 5 ∧
    match JS.parseInt raw with
    | JS.Num z => (5 < z → c = 5) ∧ (z ≤ 0 → c = 1) ∧ (1 ≤ z ≤ 5 → c = z)
    | JS.Inf negative => c = if negative then 1 else 5
    | JS.NaN => c = 1
    end.
Proof.
  unfold clamp_count. destruct (JS.parseInt raw) as [|z|[|]].
  - exists 1. split; [done | lia].
  - destruct (decide (z = 0)) as [->|Hz].
    + exists 1. split; [done | lia].
    + exists (Z.max 1 (Z.min 5 z)). split; [by destruct z | lia].
  - exists 1. split; [done | lia].
  - exists 5. split; [done | lia].
Qed.

(** *** Traces of sequential upserts *)

Lemma writes_read req res t : writes (ev_getContent req res :: t) = writes t.
Proof. reflexivity. Qed.

Lemma writes_write req res t :
  writes (ev_createOrUpdate req res :: t) = req :: writes t.
Proof. reflexivity. Qed.

Lemma writes_ack r t : writes (ev_ack r :: t) = writes t.
Proof. reflexivity. Qed.

Lemma writes_nil : writes [] = [].
Proof. reflexivity. Qed.

Lemma upserts_remote_calls ps t r : upserts ps t r → Forall is_remote_call t.
Proof. induction 1; repeat constructor; done. Qed.

Lemma upserts_writes_prefix ps t r :
  upserts ps t r → (w_path <$> writes t) `prefix_of` ps.
Proof.
  induction 1 as [|p ps greq e <- _|p ps greq gres wreq e <- _ Hp _
                 |p ps greq gres wreq t r <- _ Hp _ _ IH];
    rewrite ?writes_read, ?writes_write, ?writes_nil, ?fmap_cons, ?fmap_nil.
  - done.
  - apply prefix_nil.
  - rewrite Hp. apply prefix_cons, prefix_nil.
  - rewrite Hp. by apply prefix_cons.
Qed.




Lemma upserts_conditioned ps t r : upserts ps t r → conditioned_on_fetch t.
Proof.
  induction 1 as [|p ps greq e _ _|p ps greq gres wreq e Hg _ Hp Hsha
                 |p ps greq gres wreq t r Hg _ Hp Hsha _ IH]; intros j wreq' wres' Hj.
  - done.
  - by destruct j as [|[|]].
  - destruct j as [|[|[|]]]; try done. injection Hj as <- <-.
    exists 0%nat, greq, gres. split; [lia|]. split; [done|]. split; [congruence|].
    split; [intros; lia|]. rewrite Hsha. by destruct (marker_of gres).
  - destruct j as [|[|j]]; [done| |].
    + injection Hj as <- <-.
      exists 0%nat, greq, gres. split; [lia|]. split; [done|]. split; [congruence|].
      split; [intros; lia|]. rewrite Hsha. by destruct (marker_of gres).
    + destruct (IH j wreq' wres' Hj) as (i & greq' & gres' & Hij & Hi & Hpath & Hbetween & Hm).
      exists (S (S i)), greq', gres'. split; [lia|]. split; [done|]. split; [done|].
      split; [|done]. intros [|[|k]] greq'' gres'' Hk Hlook; [lia..|].
      eapply (Hbetween k); [lia|done].
Qed.

Lemma conditioned_on_fetch_app t tail :
  conditioned_on_fetch t → writes tail = [] → conditioned_on_fetch (t ++ tail).
Proof.
  intros Ht Htail j wreq wres Hj.
  destruct (decide (j < length t)%nat) as [Hlt|Hge].
  - rewrite lookup_app_l in Hj by done.
    destruct (Ht j wreq wres Hj) as (i & greq & gres & Hij & Hi & Hpath & Hbetween & Hm).
    exists i, greq, gres. split; [done|]. split; [by rewrite lookup_app_l by lia|].
    split; [done|]. split; [|done]. intros k greq' gres' Hk Hlook.
    rewrite lookup_app_l in Hlook by lia. by eapply Hbetween.
  - rewrite lookup_app_r in Hj by lia.
    assert (Some wreq ∈ write_of <$> tail) as Hin.
    { apply list_elem_of_fmap. eexists. split; [|by eapply list_elem_of_lookup_2]. done. }
    assert (wreq ∈ writes tail) as Hin'.
    { unfold writes. apply list_elem_of_omap.
      apply list_elem_of_fmap in Hin as (ev & Hev & Hin). eauto. }
    rewrite Htail in Hin'. by apply elem_of_nil in Hin'.
Qed.

(** *** Running the adapter and the create flow *)

Lemma marker_truthy res : truthy_opt (marker_of res) = marker_of res.
Proof.
  destruct res as [e|[|[sha|]|]]; try done. cbn.
  destruct (JS.truthy sha) eqn:Hsha; [|done]. cbn. by rewrite Hsha.
Qed.

Lemma githubGetFileSha_run (o r : option string) (p ref : string) (w : @world St) :
  let req := {| g_owner := o; g_repo := r; g_path := p; g_ref := ref |} in
  let rs := octokit_getContent req (remote w) in
  githubGetFileSha o r p ref w =
    (match failure (ev_getContent req rs.1) with
     | Some e => Thrown e
     | None => Returned (marker_of rs.1)
     end,
     {| remote := rs.2; trace := trace w ++ [ev_getContent req rs.1] |}).
Proof.
  intros req rs. unfold githubGetFileSha, try_catch. rewrite run_bind.
  unfold getContent. fold req. fold rs. destruct rs as [[e|d] s]; cbn.
  - by destruct (bool_decide (status e = Some 404)).
  - by destruct d as [|[sha|]|].
Qed.

Lemma githubWriteFile_run (o r : option string) (p c m b : string) (sha : option string)
    (w : @world St) :
  let req := {| w_owner := o; w_repo := r; w_path := p; w_message := m;
                w_content := JS.base64 c; w_branch := b; w_sha := sha |} in
  let rs := octokit_createOrUpdateFileContents req (remote w) in
  githubWriteFile o r p c m b sha w =
    (match rs.1 with Some e => Thrown e | None => Returned () end,
     {| remote := rs.2; trace := trace w ++ [ev_createOrUpdate req rs.1] |}).
Proof.
  intros req rs. unfold githubWriteFile, createOrUpdateFileContents.
  fold req. fold rs. by destruct rs as [[e|] s].
Qed.

Lemma string_app_assoc (a b c : string) : (a +:+ b) +:+ c = a +:+ b +:+ c.
Proof. induction a as [|x a IH]; [done|]. change (String x ((a +:+ b) +:+ c) = String x (a +:+ b +:+ c)). by rewrite IH. Qed.

Lemma events_of_eq {A} (m : M A) (w w' : @world St) (t : list event) :
  (m w).2 = w' → trace w' = trace w ++ t → events_of m w = t.
Proof.
  intros <- Ht. unfold events_of. rewrite Ht. by rewrite drop_app_length.
Qed.

Lemma collect_ops_none view st idx (w : @world St) :
  collect_ops view st None idx w =
    (match idx with [] => Returned [] | _ => Thrown (TypeError "testsPath") end, w).
Proof. by destruct idx. Qed.

(** With a configuration value the loop that fills [ops] returns, touches
    nothing outside, and lists a JS and a CSS path for each index. *)
Lemma collect_ops_some view st c idx (w : @world St) :
  ∃ ops,
    collect_ops view st (Some c) idx w = (Returned ops, w) ∧
    path <$> ops =
      idx ≫= (λ i, [(tmpl (cfg_testsPath c) +:+ "/" +:+ testName st) +:+ "/var-"
                      +:+ num_str (JS.Num i) +:+ ".js";
                    (tmpl (cfg_testsPath c) +:+ "/" +:+ testName st) +:+ "/var-"
                      +:+ num_str (JS.Num i) +:+ ".css"]).
Proof.
  induction idx as [|i idx (ops & Hrun & Hpaths)].
  - by exists [].
  - cbn [collect_ops]. unfold variation_ops, cfg_get.
    rewrite run_bind, run_ret_bind, run_ret, run_bind, Hrun, run_ret.
    eexists. split; [done|].
    rewrite fmap_app, Hpaths. cbn [fmap list_fmap path mbind list_bind app].
    by rewrite !string_app_assoc.
Qed.

Lemma write_ops_run st c ops (w : @world St) :
  ∃ t r w',
    write_ops st (Some c) ops w =
      (match r with None => Returned () | Some e => Thrown e end, w') ∧
    trace w' = trace w ++ t ∧ upserts (path <$> ops) t r.
Proof.
  revert w. induction ops as [|op ops IH]; intros w.
  - exists [], None, w. split; [done|]. split; [by rewrite app_nil_r | constructor].
  - cbn [write_ops]. unfold cfg_get.
    rewrite run_ret_bind. cbv beta. rewrite run_ret_bind. cbv beta.
    rewrite run_bind, githubGetFileSha_run.
    set (greq := {| g_owner := cfg_owner c; g_repo := cfg_repo c;
                    g_path := path op; g_ref := DEFAULT_BRANCH |}).
    destruct (octokit_getContent greq (remote w)) as [gres s1] eqn:Hget.
    cbn [fst snd].
    destruct (failure (ev_getContent greq gres)) as [e|] eqn:Hfail.
    + eexists [_], (Some e), _. split; [done|]. split; [done|].
      destruct gres as [e'|d]; [|done]. cbn in Hfail.
      destruct (bool_decide_reflect (status e' = Some 404)); [done|].
      injection Hfail as ->. by constructor.
    + rewrite run_bind, githubWriteFile_run, marker_truthy. cbn [remote trace].
      match goal with |- context [octokit_createOrUpdateFileContents ?q s1] =>
        set (wreq := q) end.
      destruct (octokit_createOrUpdateFileContents wreq s1) as [[e|] s2] eqn:Hput;
        cbn [fst snd].
      * eexists [_; _], (Some e), _. split; [done|].
        split; [by rewrite <- app_assoc|]. by constructor.
      * match goal with |- context [write_ops st (Some c) ops ?w1] =>
          destruct (IH w1) as (t & r & w' & Hrun & Htrace & Hups) end.
        exists (ev_getContent greq gres :: ev_createOrUpdate wreq None :: t), r, w'.
        split; [done|]. split; [|by constructor].
        rewrite Htrace. cbn [trace]. by rewrite <- !app_assoc.
Qed.

Lemma paths_pretty (base : string) (n : Z) :
  n < 2 ^ 53 →
  (Z.of_nat <$> seq 1 (Z.to_nat n)) ≫=
    (λ i, [base +:+ "/var-" +:+ num_str (JS.Num i) +:+ ".js";
           base +:+ "/var-" +:+ num_str (JS.Num i) +:+ ".css"])
  = variation_paths base (Z.to_nat n).
Proof.
  intros Hn. unfold variation_paths. apply bind_ext_Forall.
  eapply Forall_impl; [apply seq_Z_bounds|].
  intros i Hi. cbv beta in Hi. rewrite num_str_small; [done|]. lia.
Qed.

(** The create commit on a well-formed submission: it returns, and what
    it adds to the trace is a run of sequential upserts over the paths
    of the variations followed by one acknowledgement, the confirmation
    when the upserts got through and the error dialog otherwise. *)
Lemma create_commit_run view st c (n : Z) (w : @world St) :
  p_private_metadata view = Some st →
  CLIENTS_get (clientKey st) = Some c →
  count_number (count st) = JS.Num n →
  n < 2 ^ 53 →
  ∃ t r w',
    crp_create_commit view w = (Returned (), w') ∧
    trace w' = trace w ++ t ++
      [ev_ack (ack_update
         (match r with
          | None => created_view st
          | Some e => error_view "GitHub error creating files:" e
          end))] ∧
    upserts (variation_paths (tmpl (cfg_testsPath c) +:+ "/" +:+ testName st) (Z.to_nat n))
      t r.
Proof.
  intros Hmeta Hcfg Hcount Hn.
  unfold crp_create_commit, JSON_parse. rewrite Hmeta, run_ret_bind, Hcfg, Hcount.
  unfold JS.loop_from_1. destruct (Z.ltb_spec n (2 ^ 53)); [|lia].
  destruct (collect_ops_some view st c (Z.of_nat <$> seq 1 (Z.to_nat n)) w)
    as (ops & Hops & Hpaths).
  rewrite run_bind, Hops. unfold try_catch. rewrite run_bind.
  destruct (write_ops_run st c ops w) as (t & r & w' & Hrun & Htrace & Hups).
  rewrite Hrun. rewrite Hpaths, paths_pretty in Hups by done.
  exists t, r. destruct r as [e|]; unfold ack; rewrite run_emit;
    (eexists; split; [done|]; split; [|done]);
    cbn [trace]; by rewrite Htrace, <- app_assoc.
Qed.

Lemma terminal_tail_writes tail : terminal_tail tail → writes tail = [].
Proof. by intros [->|(dialog & -> & _)]. Qed.

Lemma created_view_terminal st : terminal (created_view st).
Proof. done. Qed.

Lemma error_view_terminal what e : terminal (error_view what e).
Proof. done. Qed.

Lemma updated_view_terminal st v : terminal (updated_view st v).
Proof. done. Qed.

(** On any submission at all, what the create commit adds to the trace is
    a run of sequential upserts, then nothing or one terminal dialog. *)
Lemma create_commit_events view (w : @world St) :
  ∃ ps t r tail,
    events_of (crp_create_commit view) w = t ++ tail ∧
    upserts ps t r ∧ terminal_tail tail.
Proof.
  destruct (p_private_metadata view) as [st|] eqn:Hmeta; cycle 1.
  { exists [], [], None, []. split; [|split; [constructor|by left]].
    apply (events_of_eq _ w w); [|by rewrite app_nil_r].
    unfold crp_create_commit, JSON_parse. by rewrite Hmeta. }
  destruct (JS.loop_from_1 (count_number (count st))) as [idx|] eqn:Hloop; cycle 1.
  { exists [], [], None, []. split; [|split; [constructor|by left]].
    apply (events_of_eq _ w w); [|by rewrite app_nil_r].
    unfold crp_create_commit, JSON_parse. by rewrite Hmeta, run_ret_bind, Hloop. }
  destruct (CLIENTS_get (clientKey st)) as [c|] eqn:Hcfg.
  - destruct (collect_ops_some view st c idx w) as (ops & Hops & Hpaths).
    destruct (write_ops_run st c ops w) as (t & r & w' & Hrun & Htrace & Hups).
    exists (path <$> ops), t, r,
      [ev_ack (ack_update
         (match r with
          | None => created_view st
          | Some e => error_view "GitHub error creating files:" e
          end))].
    split; [|split; [exact Hups|]].
    + apply (events_of_eq _ w
               {| remote := remote w';
                  trace := trace w' ++
                    [ev_ack (ack_update
                       (match r with
                        | None => created_view st
                        | Some e => error_view "GitHub error creating files:" e
                        end))] |});
        [|cbn [trace]; by rewrite Htrace, <- app_assoc].
      unfold crp_create_commit, JSON_parse.
      rewrite Hmeta, run_ret_bind, Hcfg, Hloop, run_bind, Hops.
      unfold try_catch. rewrite run_bind, Hrun.
      destruct r as [e|]; unfold ack; by rewrite run_emit.
    + right. eexists. split; [done|].
      destruct r; [apply error_view_terminal | apply created_view_terminal].
  - destruct idx as [|i idx].
    + exists [], [], None, [ev_ack (ack_update (created_view st))].
      split; [|split; [constructor|]].
      * apply (events_of_eq _ w
                 {| remote := remote w;
                    trace := trace w ++ [ev_ack (ack_update (created_view st))] |});
          [|done].
        unfold crp_create_commit, JSON_parse.
        by rewrite Hmeta, run_ret_bind, Hcfg, Hloop, run_bind, collect_ops_none.
      * right. eexists. split; [done|]. apply created_view_terminal.
    + exists [], [], None, []. split; [|split; [constructor|by left]].
      apply (events_of_eq _ w w); [|by rewrite app_nil_r].
      unfold crp_create_commit, JSON_parse.
      by rewrite Hmeta, run_ret_bind, Hcfg, Hloop, run_bind, collect_ops_none.
Qed.

(** *** Running the update flow *)

Lemma js_css_differ (a : string) : a +:+ ".js" ≠ a +:+ ".css".
Proof. intros Heq. by apply (inj (String.app a)) in Heq. Qed.

Lemma fetch_then_write_conditioned p1 p2 t r :
  p1 ≠ p2 → fetch_then_write p1 p2 t r → conditioned_on_fetch t.
Proof.
  intros Hne Hftw j wreq wres Hj.
  destruct Hftw as [g1 e Hg1 _|g1 r1 g2 e Hg1 _ Hg2 _
                   |g1 r1 g2 r2 w1 e Hg1 _ Hg2 _ Hw1 Hs1
                   |g1 r1 g2 r2 w1 w2 res Hg1 _ Hg2 _ Hw1 Hs1 Hw2 Hs2].
  - by destruct j as [|[|]].
  - by destruct j as [|[|[|]]].
  - destruct j as [|[|[|[|]]]]; try done. injection Hj as <- <-.
    exists 0%nat, g1, r1. split; [lia|]. split; [done|]. split; [congruence|].
    split; [|rewrite Hs1; by destruct (marker_of r1)].
    intros [|[|k]] greq' gres' Hk Hlook; [lia| |lia].
    injection Hlook as <- <-. congruence.
  - destruct j as [|[|[|[|[|]]]]]; try done.
    + injection Hj as <- <-.
      exists 0%nat, g1, r1. split; [lia|]. split; [done|]. split; [congruence|].
      split; [|rewrite Hs1; by destruct (marker_of r1)].
      intros [|[|k]] greq' gres' Hk Hlook; [lia| |lia].
      injection Hlook as <- <-. congruence.
    + injection Hj as <- <-.
      exists 1%nat, g2, r2. split; [lia|]. split; [done|]. split; [congruence|].
      split; [|rewrite Hs2; by destruct (marker_of r2)].
      intros [|[|[|k]]] greq' gres' Hk Hlook; try lia. done.
Qed.

Lemma fetch_then_write_prefix p1 p2 t r :
  fetch_then_write p1 p2 t r → (w_path <$> writes t) `prefix_of` [p1; p2].
Proof.
  destruct 1 as [| |g1 r1 g2 r2 w1 e _ _ _ _ Hw1 _
                |g1 r1 g2 r2 w1 w2 res _ _ _ _ Hw1 _ Hw2 _];
    rewrite ?writes_read, ?writes_write, ?writes_nil, ?fmap_cons, ?fmap_nil.
  - apply prefix_nil.
  - apply prefix_nil.
  - rewrite Hw1. apply prefix_cons, prefix_nil.
  - by rewrite Hw1, Hw2.
Qed.

Lemma fetch_then_write_complete p1 p2 t r :
  fetch_then_write p1 p2 t r → Forall (λ ev, failure ev = None) t →
  w_path <$> writes t = [p1; p2].
Proof.
  destruct 1 as [g1 e _ He|g1 r1 g2 e _ _ _ He|g1 r1 g2 r2 w1 e _ _ _ _ _ _
                |g1 r1 g2 r2 w1 w2 res _ _ _ _ Hw1 _ Hw2 _]; intros Hall.
  - apply Forall_cons in Hall as [Hbad _]. cbn in Hbad.
    by rewrite bool_decide_eq_false_2 in Hbad.
  - apply Forall_cons in Hall as [_ Hall]. apply Forall_cons in Hall as [Hbad _].
    cbn in Hbad. by rewrite bool_decide_eq_false_2 in Hbad.
  - do 2 apply Forall_cons in Hall as [_ Hall]. by apply Forall_cons in Hall as [Hbad _].
  - rewrite !writes_read, !writes_write, writes_nil, !fmap_cons. by rewrite Hw1, Hw2.
Qed.

(** The update commit on a well-formed submission: it returns, and what
    it adds to the trace is the two reads and the two writes, as far as
    they get, followed by one acknowledgement. *)
Lemma update_commit_run view st c (w : @world St) :
  p_private_metadata view = Some st →
  CLIENTS_get (clientKey st) = Some c →
  let v := JS.parseInt (JS.or_default (getStateValue (state view) "var_id" "val") "1") in
  let dir := tmpl (cfg_testsPath c) +:+ "/" +:+ testName st in
  ∃ t r w',
    crp_update_commit view w = (Returned (), w') ∧
    trace w' = trace w ++ t ++
      [ev_ack (ack_update
         (match r with
          | None => updated_view st v
          | Some e => error_view "GitHub update failed:" e
          end))] ∧
    fetch_then_write (dir +:+ "/var-" +:+ num_str v +:+ ".js")
                     (dir +:+ "/var-" +:+ num_str v +:+ ".css") t r.
Proof.
  intros Hmeta Hcfg v dir.
  unfold crp_update_commit, JSON_parse, cfg_get.
  rewrite Hmeta, run_ret_bind, Hcfg, run_ret_bind. fold v.
  replace (tmpl (cfg_testsPath c) +:+ "/" +:+ testName st +:+ "/var-" +:+ num_str v +:+ ".js")
    with (dir +:+ "/var-" +:+ num_str v +:+ ".js")
    by (unfold dir; by rewrite !string_app_assoc).
  replace (tmpl (cfg_testsPath c) +:+ "/" +:+ testName st +:+ "/var-" +:+ num_str v +:+ ".css")
    with (dir +:+ "/var-" +:+ num_str v +:+ ".css")
    by (unfold dir; by rewrite !string_app_assoc).
  set (p1 := dir +:+ "/var-" +:+ num_str v +:+ ".js").
  set (p2 := dir +:+ "/var-" +:+ num_str v +:+ ".css").
  unfold try_catch. rewrite run_ret_bind. cbv beta. rewrite run_ret_bind. cbv beta.
  rewrite run_bind, githubGetFileSha_run.
  set (g1 := {| g_owner := cfg_owner c; g_repo := cfg_repo c; g_path := p1;
                g_ref := DEFAULT_BRANCH |}).
  destruct (octokit_getContent g1 (remote w)) as [r1 s1] eqn:Hget1. cbn [fst snd].
  destruct (failure (ev_getContent g1 r1)) as [e|] eqn:Hf1.
  { exists [ev_getContent g1 r1], (Some e). unfold ack. rewrite run_emit.
    eexists. split; [done|]. split; [cbn [trace]; by rewrite <- app_assoc|].
    destruct r1 as [e'|d]; [|done]. cbn in Hf1.
    destruct (bool_decide_reflect (status e' = Some 404)); [done|].
    injection Hf1 as ->. by constructor. }
  rewrite run_bind, githubGetFileSha_run. cbn [remote trace].
  set (g2 := {| g_owner := cfg_owner c; g_repo := cfg_repo c; g_path := p2;
                g_ref := DEFAULT_BRANCH |}).
  destruct (octokit_getContent g2 s1) as [r2 s2] eqn:Hget2. cbn [fst snd].
  destruct (failure (ev_getContent g2 r2)) as [e|] eqn:Hf2.
  { exists [ev_getContent g1 r1; ev_getContent g2 r2], (Some e). unfold ack.
    rewrite run_emit. eexists. split; [done|].
    split; [cbn [trace]; by rewrite <- !app_assoc|].
    destruct r2 as [e'|d]; [|done]. cbn in Hf2.
    destruct (bool_decide_reflect (status e' = Some 404)); [done|].
    injection Hf2 as ->. by constructor. }
  rewrite run_bind, githubWriteFile_run, !marker_truthy. cbn [remote trace].
  match goal with |- context [octokit_createOrUpdateFileContents ?q s2] =>
    set (w1 := q) end.
  destruct (octokit_createOrUpdateFileContents w1 s2) as [[e|] s3] eqn:Hput1;
    cbn [fst snd].
  { exists [ev_getContent g1 r1; ev_getContent g2 r2; ev_createOrUpdate w1 (Some e)],
      (Some e).
    unfold ack. rewrite run_emit. eexists. split; [done|].
    split; [cbn [trace]; by rewrite <- !app_assoc|]. by constructor. }
  rewrite run_bind, githubWriteFile_run. cbn [remote trace].
  match goal with |- context [octokit_createOrUpdateFileContents ?q s3] =>
    set (w2 := q) end.
  destruct (octokit_createOrUpdateFileContents w2 s3) as [res s4] eqn:Hput2;
    cbn [fst snd].
  exists [ev_getContent g1 r1; ev_getContent g2 r2; ev_createOrUpdate w1 None;
          ev_createOrUpdate w2 res], res.
  destruct res as [e|]; unfold ack; rewrite run_emit;
    (eexists; split; [done|]; split; [cbn [trace]; by rewrite <- !app_assoc|]);
    by constructor.
Qed.

Lemma fetch_then_write_remote_calls p1 p2 t r :
  fetch_then_write p1 p2 t r → Forall is_remote_call t.
Proof. destruct 1; repeat constructor. Qed.

(** On any submission at all, what the update commit adds to the trace is
    remote calls whose writes are conditioned on the markers read, then
    nothing or one terminal dialog. *)
Lemma update_commit_events view (w : @world St) :
  ∃ t tail,
    events_of (crp_update_commit view) w = t ++ tail ∧
    conditioned_on_fetch t ∧ Forall is_remote_call t ∧ terminal_tail tail.
Proof.
  destruct (p_private_metadata view) as [st|] eqn:Hmeta; cycle 1.
  { exists [], []. split; [|split; [by intros []|split; [done|by left]]].
    apply (events_of_eq _ w w); [|by rewrite app_nil_r].
    unfold crp_update_commit, JSON_parse. by rewrite Hmeta. }
  destruct (CLIENTS_get (clientKey st)) as [c|] eqn:Hcfg; cycle 1.
  { exists [], []. split; [|split; [by intros []|split; [done|by left]]].
    apply (events_of_eq _ w w); [|by rewrite app_nil_r].
    unfold crp_update_commit, JSON_parse, cfg_get.
    by rewrite Hmeta, run_ret_bind, Hcfg. }
  destruct (update_commit_run view st c w Hmeta Hcfg) as (t & r & w' & Hrun & Htrace & Hftw).
  exists t,
    [ev_ack (ack_update
       (match r with
        | None =>
            updated_view st
              (JS.parseInt (JS.or_default (getStateValue (state view) "var_id" "val") "1"))
        | Some e => error_view "GitHub update failed:" e
        end))].
  split; [|split; [|split]].
  - eapply events_of_eq; [by rewrite Hrun|done].
  - eapply fetch_then_write_conditioned; [|exact Hftw].
    rewrite <- !(string_app_assoc _ _ ".js"), <- !(string_app_assoc _ _ ".css").
    apply js_css_differ.
  - by eapply fetch_then_write_remote_calls.
  - right. eexists. split; [done|].
    destruct r; [apply error_view_terminal | apply updated_view_terminal].
Qed.

(** C3. Every write the create commit and the update commit issue is
    conditioned on the marker fetched for its path: no precondition when
    the read gave no marker (create), that very marker otherwise (update). *)
Theorem writes_conditioned_on_fetched_marker (view : view_payload) (w : @world St) :
  conditioned_on_fetch (events_of (crp_create_commit view) w) ∧
  conditioned_on_fetch (events_of (crp_update_commit view) w).
Proof.
  split.
  - destruct (create_commit_events view w) as (ps & t & r & tail & -> & Hups & Htail).
    apply conditioned_on_fetch_app; [|by apply terminal_tail_writes].
    by eapply upserts_conditioned.
  - destruct (update_commit_events view w) as (t & tail & -> & Ht & _ & Htail).
    apply conditioned_on_fetch_app; [done | by apply terminal_tail_writes].
Qed.

(** The count step in full: the clamp and the dialog acknowledged. *)
Lemma collect_variation_count_run (view : view_payload) (st : step_state)
    (w : @world St) :
  p_private_metadata view = Some st →
  ∃ c : Z,
    1 ≤ c ≤ 5 ∧
    match JS.parseInt
            (JS.or_default (getStateValue (state view) "varcount_block" "var_count") "1")
    with
    | JS.Num z => (5 < z → c = 5) ∧ (z ≤ 0 → c = 1) ∧ (1 ≤ z ≤ 5 → c = z)
    | JS.Inf negative => c = if negative then 1 else 5
    | JS.NaN => c = 1
    end ∧
    crp_collect_variation_count view w =
      (Returned (),
       {| remote := remote w;
          trace := trace w ++
            [ev_ack (ack_update
               {| callback_id := "crp_create_commit";
                  private_metadata :=
                    Some {| clientKey := clientKey st; testName := testName st;
                            exists_ := None; count := Some (JNum c) |};
                  title := "New Test Snippets"; submit := Some "Create";
                  close := "Cancel";
                  blocks := snippet_fields c |})] |}).
Proof.
  intros Hmeta.
  destruct (clamp_count_cases
              (JS.or_default (getStateValue (state view) "varcount_block" "var_count") "1"))
    as (c & Hc & Hrange & Hcases).
  exists c. split; [done|]. split; [done|].
  unfold crp_collect_variation_count, JSON_parse. rewrite Hmeta.
  rewrite run_bind, run_ret, Hc.
  unfold JS.loop_from_1.
  destruct (Z.ltb_spec c (2 ^ 53)); [|lia].
  assert ((Z.of_nat <$> seq 1 (Z.to_nat c)) ≫= variation_blocks = snippet_fields c)
    as ->.
  { unfold snippet_fields. apply bind_ext_Forall.
    eapply Forall_impl; [apply seq_Z_bounds|].
    intros i Hi. cbv beta in Hi. apply variation_blocks_small. lia. }
  reflexivity.
Qed.

(** C5. Whatever is typed at the variation-count step, the count kept is
    in [1,5]: a value that parses above 5 gives 5, one that parses to 0
    or below, or does not parse, gives 1, and the next dialog has one JS
    field and one CSS field for each of the counted variations. *)
Theorem collect_variation_count_clamps (view : view_payload) (st : step_state)
    (w : @world St) :
  p_private_metadata view = Some st →
  ∃ c : Z,
    1 ≤ c ≤ 5 ∧
    match JS.parseInt
            (JS.or_default (getStateValue (state view) "varcount_block" "var_count") "1")
    with
    | JS.Num z => (5 < z → c = 5) ∧ (z ≤ 0 → c = 1) ∧ (1 ≤ z ≤ 5 → c = z)
    | JS.Inf negative => c = if negative then 1 else 5
    | JS.NaN => c = 1
    end ∧
    crp_collect_variation_count view w =
      (Returned (),
       {| remote := remote w;
          trace := trace w ++
            [ev_ack (ack_update
               {| callback_id := "crp_create_commit";
                  private_metadata :=
                    Some {| clientKey := clientKey st; testName := testName st;
                            exists_ := None; count := Some (JNum c) |};
                  title := "New Test Snippets"; submit := Some "Create";
                  close := "Cancel";
                  blocks := snippet_fields c |})] |}).
Proof. apply collect_variation_count_run. Qed.


Lemma tmpl_some (x : string) : tmpl (Some x) = x.
Proof. reflexivity. Qed.

Lemma CLIENTS_get_own key c : CLIENTS !! key = Some c → CLIENTS_get key = Some (OwnCfg c).
Proof. intros Hc. unfold CLIENTS_get. by rewrite Hc. Qed.




(** C10. The update commit uses the parsed variation index as it is:
    whenever the field parses to an integer [z] (zero, negative, above 5)
    the writes go to var-<z>.js and var-<z>.css, JS first, with [z]
    written as the template literal writes it (in full, in plain decimal,
    below 2^54); both are issued unless a remote call fails before. *)
Theorem update_commit_uses_index_as_is (view : view_payload) (st : step_state)
    (c : client_cfg) (z : Z) (w : @world St) :
  p_private_metadata view = Some st →
  CLIENTS !! clientKey st = Some c →
  JS.parseInt (JS.or_default (getStateValue (state view) "var_id" "val") "1") = JS.Num z →
  let v := JS.number_to_string exponent_notation (JS.Num z) in
  let jsPath := (testsPath c +:+ "/" +:+ testName st) +:+ "/var-" +:+ v +:+ ".js" in
  let cssPath := (testsPath c +:+ "/" +:+ testName st) +:+ "/var-" +:+ v +:+ ".css" in
  let events := events_of (crp_update_commit view) w in
  (Z.abs z < 2 ^ 54 → v = pretty z) ∧
  (w_path <$> writes events) `prefix_of` [jsPath; cssPath] ∧
  (Forall (λ ev, failure ev = None) events → w_path <$> writes events = [jsPath; cssPath]).
Proof.
  intros Hmeta Hcfg Hparse v jsPath cssPath events.
  split; [apply num_str_small|].
  destruct (update_commit_run view st (OwnCfg c) w Hmeta (CLIENTS_get_own _ _ Hcfg))
    as (t & r & w' & Hrun & Htrace & Hftw).
  rewrite Hparse in Hftw. cbn [cfg_testsPath tmpl default] in Hftw.
  fold v in Hftw. fold jsPath cssPath in Hftw.
  assert (events = t ++ [ev_ack (ack_update
            (match r with
             | None => updated_view st (JS.parseInt (JS.or_default
                         (getStateValue (state view) "var_id" "val") "1"))
             | Some e => error_view "GitHub update failed:" e
             end))]) as Hev.
  { eapply events_of_eq; [by rewrite Hrun | done]. }
  assert (writes events = writes t) as Hw.
  { rewrite Hev. unfold writes. rewrite omap_app. cbn. by rewrite app_nil_r. }
  rewrite Hw. split; [by eapply fetch_then_write_prefix|].
  rewrite Hev. intros Hall. apply Forall_app in Hall as [Hall _].
  by eapply fetch_then_write_complete.
Qed.

Lemma marker_to_boolean res : to_boolean (marker_of res) = bool_decide (marker_of res ≠ None).
Proof.
  destruct res as [e|[|[sha|]|]]; try done. cbn.
  destruct (JS.truthy sha) eqn:Hsha; [|done]. cbn. by rewrite Hsha.
Qed.

(** C7. After a valid first step the existence flag put in the step state
    is true exactly when the read of the test directory, base path "/"
    test name, gives a marker (the directory sentinel included), false
    when it gives none, and the "Update Existing" button is offered
    exactly when the flag is true, "Create New" always. *)
Theorem pick_client_test_existence_flag (view : view_payload) (key name : string)
    (c : client_cfg) (w : @world St) (res : js_error + content_data) (s : St) :
  getStateValue (state view) "client_block" "client_select" = Some key →
  JS.trim (JS.or_default (getStateValue (state view) "testname_block" "test_name") "")
    = name →
  name ≠ "" →
  CLIENTS !! key = Some c →
  let req := {| g_owner := Some (owner c); g_repo := Some (repo c);
                g_path := testsPath c +:+ "/" +:+ name; g_ref := DEFAULT_BRANCH |} in
  octokit_getContent req (remote w) = (res, s) →
  failure (ev_getContent req res) = None →
  let flag := bool_decide (marker_of res ≠ None) in
  ∃ dialog,
    crp_pick_client_test view w =
      (Returned (),
       {| remote := s;
          trace := trace w ++ [ev_getContent req res; ev_ack (ack_push dialog)] |}) ∧
    callback_id dialog = "crp_update_or_create" ∧
    private_metadata dialog =
      Some {| clientKey := key; testName := name; exists_ := Some flag; count := None |} ∧
    (res = inr data_array → flag = true) ∧
    "choose_create" ∈ button_ids dialog ∧
    ("choose_update" ∈ button_ids dialog ↔ flag = true).
Proof.
  intros Hkey Hname Hne Hcfg req Hget Hok flag.
  exists (update_or_create_view key name flag (testsPath c +:+ "/" +:+ name)).
  split; [|split; [done|]; split; [done|]; split; [by intros ->|]].
  - unfold crp_pick_client_test. rewrite Hkey, Hname.
    destruct name as [|a name]; [done|]. cbn [JS.truthy].
    rewrite (CLIENTS_get_own _ _ Hcfg). cbn [cfg_testsPath cfg_owner cfg_repo].
    rewrite tmpl_some, run_bind. unfold try_catch. rewrite run_bind, githubGetFileSha_run.
    fold req. rewrite Hget. cbn [fst snd]. rewrite Hok, run_ret.
    unfold ack. rewrite run_emit. cbn [remote trace].
    rewrite marker_to_boolean. fold flag. by rewrite <- app_assoc.
  - unfold button_ids, update_or_create_view. cbn [blocks].
    destruct flag; cbn; split.
    + apply elem_of_cons. by left.
    + split; [done | intros _]. apply elem_of_cons. right. apply elem_of_cons. by left.
    + apply elem_of_cons. by left.
    + split; [|done]. intros Hin. by apply list_elem_of_singleton in Hin.
Qed.

(** C8. When the read of the test directory during the first step
    fails, the handler acknowledges the error dialog with the message of
    the failure right after the failed read; nothing is pushed, and no
    action on that dialog has a handler, so the choice step is not
    reached. *)
Theorem pick_client_test_check_failure (view : view_payload) (key : string)
    (cfg : cfg_value) (w : @world St) (e : js_error) (s : St) :
  getStateValue (state view) "client_block" "client_select" = Some key →
  JS.trim (JS.or_default (getStateValue (state view) "testname_block" "test_name") "")
    ≠ "" →
  CLIENTS_get key = Some cfg →
  let name :=
    JS.trim (JS.or_default (getStateValue (state view) "testname_block" "test_name") "") in
  let req := {| g_owner := cfg_owner cfg; g_repo := cfg_repo cfg;
                g_path := tmpl (cfg_testsPath cfg) +:+ "/" +:+ name;
                g_ref := DEFAULT_BRANCH |} in
  octokit_getContent req (remote w) = (inl e, s) →
  status e ≠ Some 404 →
  let dialog :=
    {| callback_id := "noop"; private_metadata := None;
       title := "CRP Automation"; submit := None; close := "Close";
       blocks := [section ("❌ GitHub check failed:" +:+ nl +:+ "`" +:+ message e +:+ "`")] |} in
  crp_pick_client_test view w =
    (Returned (),
     {| remote := s;
        trace := trace w ++ [ev_getContent req (inl e); ev_ack (ack_update dialog)] |}) ∧
  ∀ view_id a, dispatch view_id dialog a = None.
Proof.
  intros Hkey Hne Hcfg name req Hget H404 dialog. split.
  - unfold crp_pick_client_test. rewrite Hkey. fold name.
    destruct name as [|a name'] eqn:Hname; [done|]. cbn [JS.truthy]. rewrite Hcfg.
    rewrite run_bind. unfold try_catch. rewrite run_bind, githubGetFileSha_run.
    fold req. rewrite Hget. cbn [fst snd failure].
    rewrite bool_decide_eq_false_2 by done.
    rewrite run_bind. unfold ack. rewrite run_emit, run_ret. cbn [remote trace].
    by rewrite <- app_assoc.
  - intros view_id [values|action]; [done|].
    unfold dispatch. rewrite bool_decide_eq_false_2; [done|]. apply not_elem_of_nil.
Qed.

(** *** The step state across the dialogs *)

Lemma choose_create_events body_view (w : @world St) :
  ∃ res tail,
    events_of (choose_create body_view) w =
      ev_ack ack_empty
      :: ev_views_update (id body_view)
           (variation_count_view (p_private_metadata body_view)) res
      :: tail ∧
    Forall (λ ev, shown ev = None) tail.
Proof.
  unfold choose_create, ack, try_catch, views_update.
  destruct (client_views_update (id body_view)
              (variation_count_view (p_private_metadata body_view)) (remote w))
    as [[e|] s] eqn:Hcall.
  - exists (Some e), [ev_console_error "choose_create update error:" e].
    split; [|by repeat constructor].
    eapply events_of_eq.
    + rewrite run_bind, run_emit. cbn [remote trace]. rewrite Hcall, run_emit. done.
    + cbn [trace]. by rewrite <- !app_assoc.
  - exists None, []. split; [|done].
    eapply events_of_eq.
    + rewrite run_bind, run_emit. cbn [remote trace]. rewrite Hcall. done.
    + cbn [trace]. by rewrite <- !app_assoc.
Qed.

Lemma choose_update_events body_view (w : @world St) :
  events_of (choose_update body_view) w = [ev_ack ack_empty] ∨
  ∃ res baseDir,
    events_of (choose_update body_view) w =
      [ev_ack ack_empty;
       ev_views_update (id body_view)
         (update_view (p_private_metadata body_view) baseDir) res].
Proof.
  unfold choose_update, ack, JSON_parse, cfg_get.
  destruct (p_private_metadata body_view) as [st|] eqn:Hmeta; cycle 1.
  { left. eapply events_of_eq; [by rewrite run_bind, run_emit | done]. }
  destruct (CLIENTS_get (clientKey st)) as [c|] eqn:Hcfg; cycle 1.
  { left. eapply events_of_eq; [by rewrite run_bind, run_emit, run_ret_bind, Hcfg | done]. }
  right. set (baseDir := tmpl (cfg_testsPath c) +:+ "/" +:+ testName st).
  destruct (client_views_update (id body_view) (update_view (Some st) baseDir) (remote w))
    as [res s] eqn:Hcall.
  exists res, baseDir.
  apply (events_of_eq _ w
           {| remote := s;
              trace := (trace w ++ [ev_ack ack_empty]) ++
                [ev_views_update (id body_view) (update_view (Some st) baseDir) res] |}).
  - rewrite run_bind, run_emit, run_ret_bind, Hcfg, run_ret_bind.
    unfold views_update. cbn [remote trace]. fold baseDir. rewrite Hcall. by destruct res.
  - cbn [trace]. by rewrite <- !app_assoc.
Qed.

(** C2, amended. From any dialog after the first, whatever the user does
    with it, every dialog the handler shows next either is terminal and
    carries no state, or carries the client identifier and the test name
    unchanged; a button click passes the whole state on as it is, the
    submission of the count step adds the count (in [1,5]) and leaves the
    existence flag out. *)
Theorem step_state_carried_forward (view_id : string) (v : view) (st : step_state)
    (a : user_action) (h : M unit) (w : @world St) :
  private_metadata v = Some st →
  callback_id v ≠ "crp_pick_client_test" →
  dispatch view_id v a = Some h →
  Forall (λ ev, ∀ v', shown ev = Some v' →
            match private_metadata v' with
            | None => terminal v'
            | Some st' =>
                clientKey st' = clientKey st ∧ testName st' = testName st ∧
                match a with
                | Click _ => st' = st
                | Submit _ =>
                    exists_ st' = None ∧ ∃ c, 1 ≤ c ≤ 5 ∧ count st' = Some (JNum c)
                end
            end)
         (events_of h w).
Proof.
  intros Hmeta Hnot1 Hdispatch. destruct a as [values|action]; cbn [dispatch] in Hdispatch.
  - destruct (submit v); [|done]. unfold view_handler in Hdispatch.
    rewrite bool_decide_eq_false_2 in Hdispatch by done.
    repeat case_bool_decide; [..|done]; injection Hdispatch as <-.
    + destruct (collect_variation_count_run (payload view_id v values) st w Hmeta)
        as (c & Hc & _ & Hrun).
      erewrite events_of_eq; [|by rewrite Hrun|done].
      constructor; [|done]. intros v' [= <-]. cbn [private_metadata].
      split; [done|]. split; [done|]. split; [done|]. by exists c.
    + destruct (create_commit_events (payload view_id v values) w)
        as (ps & t & r & tail & -> & Hups & Htail).
      apply Forall_app. split.
      * eapply Forall_impl; [by eapply upserts_remote_calls|]. by intros [].
      * destruct Htail as [->|(dialog & -> & Hterm)]; [done|].
        constructor; [|done]. intros v' [= <-].
        pose proof Hterm as (_ & Hnone & _). by rewrite Hnone.
    + destruct (update_commit_events (payload view_id v values) w)
        as (t & tail & -> & _ & Hcalls & Htail).
      apply Forall_app. split.
      * eapply Forall_impl; [exact Hcalls|]. by intros [].
      * destruct Htail as [->|(dialog & -> & Hterm)]; [done|].
        constructor; [|done]. intros v' [= <-].
        pose proof Hterm as (_ & Hnone & _). by rewrite Hnone.
  - case_bool_decide; [|done]. unfold action_handler in Hdispatch.
    repeat case_bool_decide; [..|done]; injection Hdispatch as <-.
    + destruct (choose_create_events (payload view_id v ∅) w) as (res & tail & -> & Htail).
      constructor; [done|]. constructor.
      * intros v' [= <-]. cbn [private_metadata variation_count_view payload p_private_metadata].
        by rewrite Hmeta.
      * eapply Forall_impl; [exact Htail|]. intros ev -> v'. done.
    + destruct (choose_update_events (payload view_id v ∅) w)
        as [->|(res & baseDir & ->)].
      * by constructor.
      * constructor; [done|]. constructor; [|done].
        intros v' [= <-]. cbn [private_metadata update_view payload p_private_metadata].
        by rewrite Hmeta.
Qed.

(** *** The first step: validation *)

(** X17. A first step with a field left empty: the same dialog comes back
    with an annotation on each empty field and on no other, and nothing
    else happens. *)
Lemma pick_client_test_empty_field (view : view_payload) (w : @world St) :
  let clientKey := getStateValue (state view) "client_block" "client_select" in
  let testName :=
    JS.trim (JS.or_default (getStateValue (state view) "testname_block" "test_name") "") in
  clientKey = None ∨ testName = "" →
  ∃ errors,
    crp_pick_client_test view w =
      (Returned (), {| remote := remote w; trace := trace w ++ [ev_ack (ack_errors errors)] |}) ∧
    (("client_block", "Please select a client.") ∈ errors ↔ clientKey = None) ∧
    (("testname_block", "Please enter a test name.") ∈ errors ↔ testName = "") ∧
    (∀ b m, (b, m) ∈ errors → b = "client_block" ∨ b = "testname_block").
Proof.
  intros clientKey testName Hempty. unfold crp_pick_client_test.
  fold clientKey. fold testName.
  destruct clientKey as [key|], testName as [|a name]; cbn [JS.truthy];
    try (by destruct Hempty); (eexists; split; [done|]); cbn [app].
  - split; [|split].
    + split; [|done]. by intros ?%list_elem_of_singleton.
    + split; [done|]. intros _. by apply list_elem_of_singleton.
    + intros b m ?%list_elem_of_singleton. right. congruence.
  - split; [|split].
    + split; [done|]. intros _. apply elem_of_cons. by left.
    + split; [done|]. intros _. apply elem_of_cons. right. by apply list_elem_of_singleton.
    + intros b m [?|?%list_elem_of_singleton]%elem_of_cons; [left|right]; congruence.
  - split; [|split].
    + split; [done|]. intros _. by apply list_elem_of_singleton.
    + split; [|done]. by intros ?%list_elem_of_singleton.
    + intros b m ?%list_elem_of_singleton. left. congruence.
Qed.

(** X18. A first step with a client that the configuration does not have and
    that is not a member of [Object.prototype] either: only the client
    field is annotated, and nothing else happens. *)
Lemma pick_client_test_unknown_client (view : view_payload) (key : string) (w : @world St) :
  getStateValue (state view) "client_block" "client_select" = Some key →
  JS.trim (JS.or_default (getStateValue (state view) "testname_block" "test_name") "")
    ≠ "" →
  CLIENTS !! key = None →
  key ∉ Object_prototype_names →
  crp_pick_client_test view w =
    (Returned (),
     {| remote := remote w;
        trace := trace w ++
          [ev_ack (ack_errors [("client_block", "Unknown client in configuration.")])] |}).
Proof.
  intros Hkey Hname Hcfg Hproto. unfold crp_pick_client_test. rewrite Hkey.
  destruct (JS.trim _) as [|a name]; [done|]. cbn [JS.truthy].
  unfold CLIENTS_get. rewrite Hcfg. by rewrite bool_decide_eq_false_2.
Qed.

(** The variation index of the update commit when the field is left
    empty: 1. *)
Lemma update_commit_index_of_empty_field (view : view_payload) :
  getStateValue (state view) "var_id" "val" = None →
  JS.parseInt (JS.or_default (getStateValue (state view) "var_id" "val") "1") = JS.Num 1.
Proof. by intros ->. Qed.

End Properties.

(** ** The scenarios, run *)

Import Scenario.

(** C1. With "abc" typed as variation number the index is not replaced by
    1: [parseInt] gives NaN and the two writes go to var-NaN.js and
    var-NaN.css. *)
Theorem update_commit_unparsable_index :
  JS.parseInt "abc" = JS.NaN ∧
  w_path <$> writes (events_of (crp_update_commit (outside:=existing) (update_step "abc")) start)
  = ["acme-tests/hero-cta/var-NaN.js"; "acme-tests/hero-cta/var-NaN.css"].
Proof. split; vm_compute; reflexivity. Qed.

(** C2 as stated fails: the dialog that follows the count step carries a
    state without the existence flag that the state before it had. *)
Lemma count_step_drops_existence_flag :
  exists_ <$> p_private_metadata (count_step "3") = Some (Some false) ∧
  ∃ next,
    events_of (crp_collect_variation_count (outside:=fresh) (count_step "3")) start
      = [ev_ack (ack_update next)] ∧
    exists_ <$> private_metadata next = Some None.
Proof. split; [reflexivity|]. eexists. split; vm_compute; reflexivity. Qed.


(** C9. A client named after a member of [Object.prototype] is not in the
    configuration, yet the first step takes it for known: no field is
    annotated, the remote is queried (under the path "undefined/...")
    and the choice dialog is pushed. *)
Theorem pick_client_test_inherited_name :
  CLIENTS (Outside := existing) !! "constructor" = None ∧
  ∃ req res dialog,
    events_of (crp_pick_client_test (outside:=existing) (step1 "constructor" "hero-cta")) start
      = [ev_getContent req res; ev_ack (ack_push dialog)] ∧
    g_path req = "undefined/hero-cta" ∧
    callback_id dialog = "crp_update_or_create".
Proof.
  split; [vm_compute; reflexivity|].
  eexists _, _, _. split; [vm_compute; reflexivity|]. split; reflexivity.
Qed.

(** "9" typed at the count step: five variations. *)
Lemma collect_variation_count_clamps_witness :
  p_private_metadata (count_step "9") = Some (hero (Some false) None) ∧
  ∃ c : Z,
    c = 5 ∧
    crp_collect_variation_count (outside:=fresh) (count_step "9") start =
      (Returned (),
       {| remote := 0%nat;
          trace :=
            [ev_ack (ack_update
               {| callback_id := "crp_create_commit";
                  private_metadata := Some (hero None (Some (JNum c)));
                  title := "New Test Snippets"; submit := Some "Create";
                  close := "Cancel";
                  blocks := snippet_fields c |})] |}).
Proof.
  split; [reflexivity|].
  destruct (collect_variation_count_clamps (outside:=fresh) (count_step "9")
              (hero (Some false) None) start eq_refl) as (c & Hc & Hcases & Hrun).
  change ((5 < 9 → c = 5) ∧ (9 ≤ 0 → c = 1) ∧ (1 ≤ 9 ≤ 5 → c = 9)) in Hcases.
  exists c. split; [apply Hcases; lia | exact Hrun].
Defined.



(** "0" typed as variation number: the writes go to var-0. *)
Lemma update_commit_uses_index_as_is_witness :
  (p_private_metadata (update_step "0") = Some (hero (Some true) None) ∧
   CLIENTS (Outside := existing) !! "acme" = Some acme ∧
   JS.parseInt "0" = JS.Num 0) ∧
  (w_path <$> writes (events_of (crp_update_commit (outside:=existing) (update_step "0")) start))
    `prefix_of` ["acme-tests/hero-cta/var-0.js"; "acme-tests/hero-cta/var-0.css"].
Proof.
  split; [split; [reflexivity | split; [vm_compute; reflexivity | reflexivity]]|].
  apply (update_commit_uses_index_as_is (outside:=existing) (update_step "0")
           (hero (Some true) None) acme 0 start);
    [reflexivity | vm_compute; reflexivity | reflexivity].
Defined.

(** The test directory exists: the flag is true and the update is offered. *)
Lemma pick_client_test_existence_flag_witness :
  (getStateValue (state (step1 "acme" " hero-cta ")) "client_block" "client_select"
     = Some "acme" ∧
   CLIENTS (Outside := existing) !! "acme" = Some acme) ∧
  ∃ dialog,
    private_metadata dialog = Some (hero (Some true) None) ∧
    "choose_update" ∈ button_ids dialog.
Proof.
  split; [split; vm_compute; reflexivity|].
  destruct (pick_client_test_existence_flag (outside:=existing)
              (step1 "acme" " hero-cta ") "acme" "hero-cta" acme start
              (inr data_array) 1%nat)
    as (dialog & _ & _ & Hmeta & _ & _ & Hupdate);
    [vm_compute; reflexivity | vm_compute; reflexivity | discriminate
    | vm_compute; reflexivity | vm_compute; reflexivity | reflexivity |].
  exists dialog. split; [exact Hmeta | apply Hupdate; reflexivity].
Defined.

(** GitHub is down: the error dialog, with the message of the failure. *)
Lemma pick_client_test_check_failure_witness :
  (getStateValue (state (step1 "acme" "hero-cta")) "client_block" "client_select"
     = Some "acme" ∧
   CLIENTS_get (outside:=outage) "acme" = Some (OwnCfg acme) ∧
   status server_error ≠ Some 404) ∧
  ∃ req dialog,
    events_of (crp_pick_client_test (outside:=outage) (step1 "acme" "hero-cta")) start
      = [ev_getContent req (inl server_error); ev_ack (ack_update dialog)] ∧
    blocks dialog = [section ("❌ GitHub check failed:" +:+ nl +:+ "`Server Error`")].
Proof.
  split; [split; [vm_compute; reflexivity | split; [vm_compute; reflexivity | discriminate]]|].
  destruct (pick_client_test_check_failure (outside:=outage) (step1 "acme" "hero-cta")
              "acme" (OwnCfg acme) start server_error 1%nat)
    as [Hrun _];
    [vm_compute; reflexivity | vm_compute; discriminate | vm_compute; reflexivity
    | vm_compute; reflexivity | discriminate |].
  eexists _, _. split.
  - eapply events_of_eq; [by rewrite Hrun | reflexivity].
  - reflexivity.
Defined.

(** "Update Existing" clicked on the choice dialog: the state goes on as it is. *)
Lemma step_state_carried_forward_witness :
  let choice := update_or_create_view "acme" "hero-cta" true "acme-tests/hero-cta" in
  (private_metadata choice = Some (hero (Some true) None) ∧
   callback_id choice ≠ "crp_pick_client_test" ∧
   dispatch (outside:=existing) "V1" choice (Click "choose_update")
     = Some (choose_update (outside:=existing) (payload "V1" choice ∅))) ∧
  Forall (λ ev, ∀ v', shown ev = Some v' →
            match private_metadata v' with
            | None => terminal v'
            | Some st' =>
                clientKey st' = "acme" ∧ testName st' = "hero-cta" ∧
                st' = hero (Some true) None
            end)
         (events_of (choose_update (outside:=existing) (payload "V1" choice ∅)) start).
Proof.
  intros choice.
  split; [split; [reflexivity | split; [discriminate | vm_compute; reflexivity]]|].
  apply (step_state_carried_forward (outside:=existing) "V1" choice
           (hero (Some true) None) (Click "choose_update")
           (choose_update (outside:=existing) (payload "V1" choice ∅)) start);
    [reflexivity | discriminate | vm_compute; reflexivity].
Defined.

(** ** Further properties of the handlers *)

Section MoreProperties.
Context {St : Type} {outside : Outside St}.

(** *** Reading the submitted values *)

(** X1. [getStateValue] gives [null] or a non-empty string, never the
    empty string; text typed in the element comes before the option
    picked, and a block or an action the state does not have gives
    [null]. *)
Theorem getStateValue_never_empty (state : view_state) (blockId actionId : string) :
  getStateValue state blockId actionId ≠ Some "" ∧
  (∀ el s, state !! blockId ≫= (.!! actionId) = Some el →
           value el = Some s → s ≠ "" → getStateValue state blockId actionId = Some s) ∧
  (∀ el, state !! blockId ≫= (.!! actionId) = Some el →
         (value el = None ∨ value el = Some "") →
         getStateValue state blockId actionId = truthy_opt (selected_option el)) ∧
  (state !! blockId ≫= (.!! actionId) = None → getStateValue state blockId actionId = None).
Proof.
  assert (∀ x, truthy_opt x ≠ Some "") as Hne.
  { intros [[|a s]|]; done. }
  unfold getStateValue. repeat split.
  - destruct (truthy_opt (_ ≫= value)) as [s|] eqn:Hv; [|apply Hne].
    intros [= ->]. by apply Hne in Hv.
  - intros el s -> Hs Hnonempty. cbn. rewrite Hs. by destruct s.
  - intros el -> [Hv|Hv]; cbn; by rewrite Hv.
  - by intros ->.
Qed.

(** *** The adapter *)

(** X2. [githubGetFileSha] makes exactly one call and never loops.  A
    directory listing gives the sentinel, a file its [sha], which is never
    empty; a response without a [sha], and a failure with status 404,
    give [null]; any other failure is thrown again as it came. *)
Theorem githubGetFileSha_outcomes (o r : option string) (p ref : string) (w : @world St) :
  let req := {| g_owner := o; g_repo := r; g_path := p; g_ref := ref |} in
  ∃ res s,
    octokit_getContent req (remote w) = (res, s) ∧
    (githubGetFileSha o r p ref w).2
      = {| remote := s; trace := trace w ++ [ev_getContent req res] |} ∧
    match (githubGetFileSha o r p ref w).1 with
    | Returned (Some m) =>
        m ≠ "" ∧ ((res = inr data_array ∧ m = "DIR") ∨ res = inr (data_object (Some m)))
    | Returned None =>
        (∃ e, res = inl e ∧ status e = Some 404) ∨ res = inr data_none ∨
        res = inr (data_object None) ∨ res = inr (data_object (Some ""))
    | Thrown e => res = inl e ∧ status e ≠ Some 404
    | Diverged => False
    end.
Proof.
  intros req. rewrite githubGetFileSha_run. fold req.
  destruct (octokit_getContent req (remote w)) as [res s] eqn:Hget.
  exists res, s. split; [done|]. split; [done|]. cbn [fst snd].
  destruct res as [e|[|[[|a sha]|]|]]; cbn.
  - destruct (bool_decide_reflect (status e = Some 404)); [left; eauto | done].
  - split; [done|]. by left.
  - by do 3 right.
  - split; [done|]. by right.
  - right. right. by left.
  - right. by left.
Qed.

(** *** What the handlers send, event by event *)

Lemma emits_events {A} (P : event → Prop) (m : M A) (w : @world St) :
  emits P m → Forall P (events_of m w).
Proof.
  intros Hm. destruct (Hm w) as (t & Ht & HP).
  by rewrite (events_of_eq m w _ t eq_refl Ht).
Qed.

Lemma emits_ret {A} (P : event → Prop) (a : A) : emits (St := St) P (mret a).
Proof. intros w. exists []. split; [by rewrite app_nil_r | done]. Qed.

Lemma emits_throw {A} (P : event → Prop) (e : js_error) :
  emits (St := St) (A := A) P (throw e).
Proof. intros w. exists []. split; [by rewrite app_nil_r | done]. Qed.

Lemma emits_diverge {A} (P : event → Prop) : emits (St := St) (A := A) P diverge.
Proof. intros w. exists []. split; [by rewrite app_nil_r | done]. Qed.

Lemma emits_emit (P : event → Prop) (ev : event) : P ev → emits (St := St) P (emit ev).
Proof. intros Hev w. exists [ev]. split; [done | by constructor]. Qed.

Lemma emits_bind {A B} (P : event → Prop) (m : M A) (f : A → M B) :
  emits P m → (∀ a, emits P (f a)) → emits (St := St) P (m ≫= f).
Proof.
  intros Hm Hf w. rewrite run_bind. destruct (Hm w) as (t1 & Ht1 & HP1).
  destruct (m w) as [[a|e|] w1]; cbn [snd] in Ht1.
  - destruct (Hf a w1) as (t2 & Ht2 & HP2). exists (t1 ++ t2).
    split; [by rewrite Ht2, Ht1, app_assoc | by apply Forall_app].
  - by exists t1.
  - by exists t1.
Qed.

Lemma emits_try_catch {A} (P : event → Prop) (m : M A) (h : js_error → M A) :
  emits P m → (∀ e, emits P (h e)) → emits (St := St) P (try_catch m h).
Proof.
  intros Hm Hh w. unfold try_catch. destruct (Hm w) as (t1 & Ht1 & HP1).
  destruct (m w) as [[a|e|] w1]; cbn [snd] in Ht1.
  - by exists t1.
  - destruct (Hh e w1) as (t2 & Ht2 & HP2). exists (t1 ++ t2).
    split; [by rewrite Ht2, Ht1, app_assoc | by apply Forall_app].
  - by exists t1.
Qed.

Lemma emits_githubGetFileSha (P : event → Prop) o r p ref :
  (∀ res, P (ev_getContent {| g_owner := o; g_repo := r; g_path := p; g_ref := ref |} res)) →
  emits (St := St) P (githubGetFileSha o r p ref).
Proof.
  intros HP w. rewrite githubGetFileSha_run. cbn [snd trace].
  eexists [_]. split; [done | by constructor].
Qed.

Lemma emits_githubWriteFile (P : event → Prop) o r p c m b sha :
  (∀ res, P (ev_createOrUpdate
               {| w_owner := o; w_repo := r; w_path := p; w_message := m;
                  w_content := JS.base64 c; w_branch := b; w_sha := sha |} res)) →
  emits (St := St) P (githubWriteFile o r p c m b sha).
Proof.
  intros HP w. rewrite githubWriteFile_run. cbn [snd trace].
  eexists [_]. split; [done | by constructor].
Qed.

Lemma emits_cfg_get (P : event → Prop) cfg prop proj :
  emits (St := St) P (cfg_get cfg prop proj).
Proof. destruct cfg; [apply emits_ret | apply emits_throw]. Qed.

Lemma emits_JSON_parse (P : event → Prop) m : emits (St := St) P (JSON_parse m).
Proof. destruct m; [apply emits_ret | apply emits_throw]. Qed.

Lemma emits_mono {A} (P Q : event → Prop) (m : M A) :
  (∀ ev, P ev → Q ev) → emits P m → emits (St := St) Q m.
Proof.
  intros HPQ Hm w. destruct (Hm w) as (t & Ht & HP). exists t.
  split; [done | by eapply Forall_impl].
Qed.

Lemma emits_write_ops (P : event → Prop) st c ops :
  (∀ op res, op ∈ ops →
     P (ev_getContent
          {| g_owner := cfg_owner c; g_repo := cfg_repo c; g_path := path op;
             g_ref := DEFAULT_BRANCH |} res)) →
  (∀ op sha res, op ∈ ops →
     P (ev_createOrUpdate
          {| w_owner := cfg_owner c; w_repo := cfg_repo c; w_path := path op;
             w_message := "CRP: create " +:+ testName st +:+ " (" +:+ clientKey st
                          +:+ ") -> " +:+ path op;
             w_content := JS.base64 (content op); w_branch := DEFAULT_BRANCH;
             w_sha := sha |} res)) →
  emits (St := St) P (write_ops st (Some c) ops).
Proof.
  induction ops as [|op ops IH]; intros Hget Hput; [apply emits_ret|].
  intros w. cbn [write_ops]. unfold cfg_get.
  rewrite run_ret_bind. cbv beta. rewrite run_ret_bind. cbv beta. revert w.
  apply emits_bind.
  { apply emits_githubGetFileSha. intros res. apply Hget, elem_of_cons. by left. }
  intros sha. apply emits_bind.
  { apply emits_githubWriteFile. intros res. apply Hput, elem_of_cons. by left. }
  intros _. apply IH.
  - intros op' res Hin. apply Hget, elem_of_cons. by right.
  - intros op' sha' res Hin. apply Hput, elem_of_cons. by right.
Qed.

Lemma collect_ops_contents view st c idx (w : @world St) :
  ∃ ops,
    collect_ops view st (Some c) idx w = (Returned ops, w) ∧
    Forall (λ op, ∃ i kind,
              i ∈ idx ∧ (kind = "js" ∨ kind = "css") ∧
              path op = (tmpl (cfg_testsPath c) +:+ "/" +:+ testName st +:+ "/var-"
                         +:+ num_str (JS.Num i)) +:+ "." +:+ kind ∧
              content op =
                JS.or_default
                  (getStateValue (state view) (kind +:+ "_" +:+ num_str (JS.Num i)) "val")
                  "")
           ops.
Proof.
  induction idx as [|i idx (ops & Hrun & Hops)].
  - by exists [].
  - cbn [collect_ops]. unfold variation_ops, cfg_get.
    rewrite run_bind, run_ret_bind, run_ret, run_bind, Hrun, run_ret.
    eexists. split; [done|]. repeat apply Forall_cons_2.
    + exists i, "js". split; [apply elem_of_cons; by left|]. split; [by left|]. done.
    + exists i, "css". split; [apply elem_of_cons; by left|]. split; [by right|]. done.
    + eapply Forall_impl; [exact Hops|]. intros op (j & kind & Hj & Hrest).
      exists j, kind. split; [apply elem_of_cons; by right | done].
Qed.

Lemma Forall_writes (Q : put_request → Prop) (t : list event) :
  Forall (λ ev, match ev with ev_createOrUpdate req _ => Q req | _ => True end) t →
  Forall Q (writes t).
Proof.
  induction 1 as [|ev t Hev _ IH]; [done|].
  destruct ev; try done. rewrite writes_write. by constructor.
Qed.

(** X3. What the create commit writes: every write request is the JS or
    the CSS file of one variation [i] in 1..N, sent to the repository of
    the client on the default branch, its content the base64 of what was
    typed in the field [js_i] or [css_i] (of nothing when the field was
    left blank), its message naming the test, the client and the path. *)
Theorem create_commit_write_requests (view : view_payload) (st : step_state)
    (c : client_cfg) (n : Z) (w : @world St) :
  p_private_metadata view = Some st →
  CLIENTS !! clientKey st = Some c →
  count st = Some (JNum n) →
  Forall (λ wreq, ∃ i kind,
            1 ≤ i ≤ n ∧ (kind = "js" ∨ kind = "css") ∧
            let p := testsPath c +:+ "/" +:+ testName st +:+ "/var-" +:+ pretty i
                     +:+ "." +:+ kind in
            w_owner wreq = Some (owner c) ∧ w_repo wreq = Some (repo c) ∧
            w_path wreq = p ∧
            w_message wreq = "CRP: create " +:+ testName st +:+ " (" +:+ clientKey st
                             +:+ ") -> " +:+ p ∧
            w_content wreq =
              JS.base64
                (JS.or_default
                   (getStateValue (state view) (kind +:+ "_" +:+ pretty i) "val") "") ∧
            w_branch wreq = DEFAULT_BRANCH)
         (writes (events_of (crp_create_commit view) w)).
Proof.
  intros Hmeta Hcfg Hcount. apply Forall_writes, emits_events. intros w'.
  unfold crp_create_commit, JSON_parse.
  rewrite Hmeta, run_ret_bind, (CLIENTS_get_own _ _ Hcfg), Hcount.
  cbn [count_number JS.loop_from_1].
  destruct (Z.ltb_spec n (2 ^ 53)); [|by exists []; rewrite app_nil_r].
  destruct (collect_ops_contents view st (OwnCfg c) (Z.of_nat <$> seq 1 (Z.to_nat n)) w')
    as (ops & Hrun & Hops).
  rewrite run_bind, Hrun. clear Hrun. revert w'.
  apply emits_try_catch; [|intros e; by apply emits_emit].
  apply emits_bind; [|intros _; by apply emits_emit].
  apply emits_write_ops; [done|].
  intros op sha res Hin. rewrite Forall_forall in Hops.
  destruct (Hops op Hin) as (i & kind & Hi & Hkind & Hpath & Hcontent).
  assert (1 ≤ i ≤ n) as Hrange.
  { apply list_elem_of_fmap in Hi as (k & -> & Hk). apply elem_of_seq in Hk. lia. }
  rewrite num_str_small in Hpath, Hcontent by lia.
  cbn [cfg_testsPath] in Hpath. rewrite tmpl_some in Hpath.
  exists i, kind. split; [done|]. split; [done|]. cbn.
  rewrite Hpath, Hcontent, !string_app_assoc. done.
Qed.

(** X4. Every remote call of the create commit and of the update commit
    goes to the repository of the client named in the step state and to
    the default branch, whatever was submitted. *)
Theorem commits_stay_in_client_repository (view : view_payload) (st : step_state)
    (cfg : cfg_value) (w : @world St) :
  p_private_metadata view = Some st →
  CLIENTS_get (clientKey st) = Some cfg →
  Forall (call_for cfg) (events_of (crp_create_commit view) w) ∧
  Forall (call_for cfg) (events_of (crp_update_commit view) w).
Proof.
  intros Hmeta Hcfg. split; apply emits_events; intros w'.
  - unfold crp_create_commit, JSON_parse. rewrite Hmeta, run_ret_bind, Hcfg.
    destruct (JS.loop_from_1 _) as [idx|]; [|by exists []; rewrite app_nil_r].
    destruct (collect_ops_some view st cfg idx w') as (ops & Hrun & _).
    rewrite run_bind, Hrun. clear Hrun. revert w'.
    apply emits_try_catch; [|intros e; by apply emits_emit].
    apply emits_bind; [|intros _; by apply emits_emit].
    by apply emits_write_ops.
  - unfold crp_update_commit, JSON_parse, cfg_get.
    rewrite Hmeta, run_ret_bind, Hcfg, run_ret_bind. revert w'.
    apply emits_try_catch; [|intros e; by apply emits_emit].
    intros w'. rewrite run_ret_bind. cbv beta. rewrite run_ret_bind. cbv beta. revert w'.
    apply emits_bind; [by apply emits_githubGetFileSha|]. intros jsSha.
    apply emits_bind; [by apply emits_githubGetFileSha|]. intros cssSha.
    apply emits_bind; [by apply emits_githubWriteFile|]. intros _.
    apply emits_bind; [by apply emits_githubWriteFile|]. intros _.
    by apply emits_emit.
Qed.

(** *** The update commit *)

Lemma fetch_then_write_stopped p1 p2 t e :
  fetch_then_write p1 p2 t (Some e) → stops_at_failure t e.
Proof.
  inversion 1 as [g1 e' _ He|g1 r1 g2 e' _ Hf1 _ He|g1 r1 g2 r2 w1 e' _ Hf1 _ Hf2 _ _
                 |g1 r1 g2 r2 w1 w2 res _ Hf1 _ Hf2 _ _ _ _]; subst.
  - exists [], (ev_getContent g1 (inl e)). split; [done|]. split; [|done].
    cbn. by rewrite bool_decide_eq_false_2.
  - exists [ev_getContent g1 r1], (ev_getContent g2 (inl e)). split; [done|].
    split; [cbn; by rewrite bool_decide_eq_false_2 | by constructor].
  - exists [ev_getContent g1 r1; ev_getContent g2 r2], (ev_createOrUpdate w1 (Some e)).
    split; [done|]. split; [done|]. constructor; [done|]. by constructor.
  - exists [ev_getContent g1 r1; ev_getContent g2 r2; ev_createOrUpdate w1 None],
      (ev_createOrUpdate w2 (Some e)).
    split; [done|]. split; [done|]. constructor; [done|]. constructor; [done|].
    by constructor.
Qed.

Lemma fetch_then_write_reads_first p1 p2 t r :
  fetch_then_write p1 p2 t r → writes t ≠ [] →
  ∃ g1 r1 g2 r2 rest,
    t = ev_getContent g1 r1 :: ev_getContent g2 r2 :: rest ∧
    g_path g1 = p1 ∧ g_path g2 = p2 ∧
    failure (ev_getContent g1 r1) = None ∧ failure (ev_getContent g2 r2) = None ∧
    Forall (λ ev, write_of ev ≠ None) rest.
Proof.
  destruct 1 as [g1 e|g1 r1 g2 e|g1 r1 g2 r2 w1 e Hg1 Hf1 Hg2 Hf2 _ _
                |g1 r1 g2 r2 w1 w2 res Hg1 Hf1 Hg2 Hf2 _ _ _ _]; intros Hw; try done.
  - exists g1, r1, g2, r2, [ev_createOrUpdate w1 (Some e)].
    repeat (split; [done|]). by constructor.
  - exists g1, r1, g2, r2, [ev_createOrUpdate w1 None; ev_createOrUpdate w2 res].
    repeat (split; [done|]). constructor; [done|]. by constructor.
Qed.

(** X5. The update commit reads both markers before it writes anything:
    if a write is issued at all, the trace starts with the read of the JS
    path and the read of the CSS path, neither failed, and only writes
    follow.  The calls stop at the first failure; the handler returns
    with one acknowledgement after them, the error dialog with the
    message of the failure or, when all four calls went through, the
    confirmation naming the test, the variation and the client. *)
Theorem update_commit_reads_then_writes (view : view_payload) (st : step_state)
    (c : client_cfg) (w : @world St) :
  p_private_metadata view = Some st →
  CLIENTS !! clientKey st = Some c →
  let v := JS.number_to_string exponent_notation
             (JS.parseInt (JS.or_default (getStateValue (state view) "var_id" "val") "1")) in
  let jsPath := (testsPath c +:+ "/" +:+ testName st) +:+ "/var-" +:+ v +:+ ".js" in
  let cssPath := (testsPath c +:+ "/" +:+ testName st) +:+ "/var-" +:+ v +:+ ".css" in
  ∃ calls dialog w',
    crp_update_commit view w = (Returned (), w') ∧
    trace w' = trace w ++ calls ++ [ev_ack (ack_update dialog)] ∧
    Forall is_remote_call calls ∧
    (writes calls ≠ [] →
     ∃ g1 r1 g2 r2 rest,
       calls = ev_getContent g1 r1 :: ev_getContent g2 r2 :: rest ∧
       g_path g1 = jsPath ∧ g_path g2 = cssPath ∧
       failure (ev_getContent g1 r1) = None ∧ failure (ev_getContent g2 r2) = None ∧
       Forall (λ ev, write_of ev ≠ None) rest) ∧
    ((Forall (λ ev, failure ev = None) calls ∧
      w_path <$> writes calls = [jsPath; cssPath] ∧
      dialog =
        {| callback_id := "noop"; private_metadata := None;
           title := "Updated ✅"; submit := None; close := "Close";
           blocks :=
             [section ("Updated *" +:+ testName st +:+ "* variation *" +:+ v
                       +:+ "* for *" +:+ clientKey st +:+ "*.")] |})
     ∨ (∃ e, stops_at_failure calls e ∧
             dialog =
               {| callback_id := "noop"; private_metadata := None;
                  title := "Error"; submit := None; close := "Close";
                  blocks :=
                    [section ("❌ GitHub update failed:" +:+ nl +:+ "`"
                              +:+ message e +:+ "`")] |})).
Proof.
  intros Hmeta Hcfg v jsPath cssPath.
  destruct (update_commit_run view st (OwnCfg c) w Hmeta (CLIENTS_get_own _ _ Hcfg))
    as (t & r & w' & Hrun & Htrace & Hftw).
  cbn [cfg_testsPath] in Hftw. rewrite tmpl_some in Hftw.
  change (fetch_then_write jsPath cssPath t r) in Hftw.
  eexists t, _, w'. split; [exact Hrun|]. split; [exact Htrace|].
  split; [by eapply fetch_then_write_remote_calls|].
  split; [by eapply fetch_then_write_reads_first|].
  destruct r as [e|].
  - right. exists e. split; [by eapply fetch_then_write_stopped | done].
  - left. inversion Hftw as [| | |g1 r1 g2 r2 w1 w2 res Hg1 Hf1 Hg2 Hf2 Hw1 _ Hw2 _]; subst.
    split; [by repeat constructor|]. split; [|done].
    rewrite !writes_read, !writes_write, writes_nil, !fmap_cons. by rewrite Hw1, Hw2.
Qed.

(** X6. With the variation number left blank the update commit works on
    variation 1: its writes go to var-1.js and then var-1.css, both when
    no remote call fails. *)
Theorem update_commit_blank_index (view : view_payload) (st : step_state)
    (c : client_cfg) (w : @world St) :
  p_private_metadata view = Some st →
  CLIENTS !! clientKey st = Some c →
  getStateValue (state view) "var_id" "val" = None →
  let jsPath := (testsPath c +:+ "/" +:+ testName st) +:+ "/var-1.js" in
  let cssPath := (testsPath c +:+ "/" +:+ testName st) +:+ "/var-1.css" in
  let events := events_of (crp_update_commit view) w in
  (w_path <$> writes events) `prefix_of` [jsPath; cssPath] ∧
  (Forall (λ ev, failure ev = None) events → w_path <$> writes events = [jsPath; cssPath]).
Proof.
  intros Hmeta Hcfg Hblank jsPath cssPath events.
  destruct (update_commit_run view st (OwnCfg c) w Hmeta (CLIENTS_get_own _ _ Hcfg))
    as (t & r & w' & Hrun & Htrace & Hftw).
  rewrite Hblank in Hftw. cbn [cfg_testsPath] in Hftw. rewrite tmpl_some in Hftw.
  change (fetch_then_write jsPath cssPath t r) in Hftw.
  assert (events = t ++ [ev_ack (ack_update
            (match r with
             | None => updated_view st (JS.parseInt (JS.or_default
                         (getStateValue (state view) "var_id" "val") "1"))
             | Some e => error_view "GitHub update failed:" e
             end))]) as Hev.
  { eapply events_of_eq; [by rewrite Hrun | done]. }
  assert (writes events = writes t) as Hw.
  { rewrite Hev. unfold writes. rewrite omap_app. cbn. by rewrite app_nil_r. }
  rewrite Hw. split; [by eapply fetch_then_write_prefix|].
  rewrite Hev. intros Hall. apply Forall_app in Hall as [Hall _].
  by eapply fetch_then_write_complete.
Qed.

(** *** The first step as a whole *)

Lemma truthy_opt_nonempty x s : truthy_opt x = Some s → s ≠ "".
Proof. destruct x as [[|a x]|]; [done| |done]. by intros [= <-]. Qed.

Lemma getStateValue_nonempty state b a s : getStateValue state b a = Some s → s ≠ "".
Proof.
  unfold getStateValue. destruct (truthy_opt (_ ≫= value)) as [s'|] eqn:Hv.
  - intros [= <-]. by eapply truthy_opt_nonempty.
  - apply truthy_opt_nonempty.
Qed.

(** The first step, case by case. *)
Lemma pick_client_test_shape (view : view_payload) (w : @world St) :
  ∃ calls a w',
    crp_pick_client_test view w = (Returned (), w') ∧
    trace w' = trace w ++ calls ++ [ev_ack a] ∧
    writes calls = [] ∧
    match a with
    | ack_errors errs => calls = [] ∧ remote w' = remote w ∧ errs ≠ []
    | ack_update dialog =>
        ∃ req e, calls = [ev_getContent req (inl e)] ∧ status e ≠ Some 404 ∧
                 terminal dialog
    | ack_push dialog =>
        ∃ req res st',
          calls = [ev_getContent req res] ∧ failure (ev_getContent req res) = None ∧
          callback_id dialog = "crp_update_or_create" ∧
          private_metadata dialog = Some st' ∧
          clientKey st' ≠ "" ∧ testName st' ≠ "" ∧
          testName st' =
            JS.trim (JS.or_default
                       (getStateValue (state view) "testname_block" "test_name") "") ∧
          exists_ st' = Some (bool_decide (marker_of res ≠ None)) ∧ count st' = None
    | ack_empty => False
    end.
Proof.
  unfold crp_pick_client_test.
  destruct (getStateValue (state view) "client_block" "client_select") as [key|] eqn:Hkey;
    cycle 1.
  { unfold ack. rewrite run_emit. eexists [], _, _. split; [done|]. split; [done|].
    split; [done|]. split; [done|]. split; [done|]. by destruct (JS.truthy _). }
  set (name := JS.trim _).
  destruct (JS.truthy name) eqn:Hname; cycle 1.
  { unfold ack. rewrite run_emit. eexists [], _, _. split; [done|]. split; [done|].
    split; [done|]. done. }
  destruct (CLIENTS_get key) as [cfg|] eqn:Hcfg; cycle 1.
  { unfold ack. rewrite run_emit. eexists [], _, _. split; [done|]. split; [done|].
    split; [done|]. done. }
  rewrite run_bind. unfold try_catch. rewrite run_bind, githubGetFileSha_run.
  match goal with |- context [octokit_getContent ?q (remote w)] => set (req := q) end.
  destruct (octokit_getContent req (remote w)) as [res s] eqn:Hget. cbn [fst snd].
  destruct (failure (ev_getContent req res)) as [e|] eqn:Hfail.
  - rewrite run_bind. unfold ack. rewrite run_emit, run_ret.
    eexists [ev_getContent req res], _, _. split; [done|].
    split; [cbn [trace]; by rewrite <- app_assoc|]. split; [done|].
    destruct res as [e'|d]; [|done]. cbn in Hfail.
    destruct (bool_decide_reflect (status e' = Some 404)); [done|].
    injection Hfail as ->. exists req, e. done.
  - rewrite run_ret. unfold ack. rewrite run_emit.
    eexists [ev_getContent req res], _, _. split; [done|].
    split; [cbn [trace]; by rewrite <- app_assoc|]. split; [done|].
    eexists req, res, _. split; [done|]. split; [done|]. split; [done|].
    split; [done|]. cbn [clientKey testName exists_ count].
    split; [by eapply getStateValue_nonempty|]. split; [by destruct name|].
    split; [done|]. by rewrite marker_to_boolean.
Qed.

(** X7. The first step always returns, with exactly one acknowledgement
    as its last action, and never writes.  A validation error leaves the
    remote untouched; otherwise there is exactly one read, and either it
    failed and the dialog acknowledged is terminal, or the choice dialog
    is pushed with a state whose client identifier and test name are not
    empty, the test name trimmed. *)
Theorem pick_client_test_total (view : view_payload) (w : @world St) :
  ∃ calls a w',
    crp_pick_client_test view w = (Returned (), w') ∧
    trace w' = trace w ++ calls ++ [ev_ack a] ∧
    writes calls = [] ∧
    match a with
    | ack_errors errs => calls = [] ∧ remote w' = remote w ∧ errs ≠ []
    | ack_update dialog =>
        ∃ req e, calls = [ev_getContent req (inl e)] ∧ status e ≠ Some 404 ∧
                 terminal dialog
    | ack_push dialog =>
        ∃ req res st',
          calls = [ev_getContent req res] ∧ failure (ev_getContent req res) = None ∧
          callback_id dialog = "crp_update_or_create" ∧
          private_metadata dialog = Some st' ∧
          clientKey st' ≠ "" ∧ testName st' ≠ "" ∧
          testName st' =
            JS.trim (JS.or_default
                       (getStateValue (state view) "testname_block" "test_name") "") ∧
          exists_ st' = Some (bool_decide (marker_of res ≠ None)) ∧ count st' = None
    | ack_empty => False
    end.
Proof. apply pick_client_test_shape. Qed.

(** *** How the submission handlers end *)

Lemma collect_variation_count_shape view (w : @world St) :
  match p_private_metadata view with
  | None => crp_collect_variation_count view w = (Thrown SyntaxError, w)
  | Some st =>
      ∃ a, crp_collect_variation_count view w =
             (Returned (), {| remote := remote w; trace := trace w ++ [ev_ack a] |})
  end.
Proof.
  destruct (p_private_metadata view) as [st|] eqn:Hmeta.
  - destruct (collect_variation_count_run view st w Hmeta) as (c & _ & _ & Hrun). eauto.
  - unfold crp_collect_variation_count, JSON_parse. by rewrite Hmeta.
Qed.

Lemma create_commit_shape view (w : @world St) :
  match p_private_metadata view with
  | None => crp_create_commit view w = (Thrown SyntaxError, w)
  | Some st =>
      match JS.loop_from_1 (count_number (count st)), CLIENTS_get (clientKey st) with
      | None, _ => crp_create_commit view w = (Diverged, w)
      | Some (_ :: _), None => crp_create_commit view w = (Thrown (TypeError "testsPath"), w)
      | Some [], None =>
          crp_create_commit view w =
            (Returned (),
             {| remote := remote w;
                trace := trace w ++ [ev_ack (ack_update (created_view st))] |})
      | Some _, Some _ =>
          ∃ calls a w',
            crp_create_commit view w = (Returned (), w') ∧
            trace w' = trace w ++ calls ++ [ev_ack a] ∧ Forall is_remote_call calls
      end
  end.
Proof.
  unfold crp_create_commit, JSON_parse.
  destruct (p_private_metadata view) as [st|]; [|done]. rewrite run_ret_bind.
  destruct (JS.loop_from_1 _) as [idx|]; [|done].
  destruct (CLIENTS_get (clientKey st)) as [c|].
  - destruct (collect_ops_some view st c idx w) as (ops & Hops & _).
    destruct (write_ops_run st c ops w) as (t & r & w' & Hrun & Htrace & Hups).
    rewrite run_bind, Hops. unfold try_catch. rewrite run_bind, Hrun.
    assert (Forall is_remote_call t) as Hcalls by by eapply upserts_remote_calls.
    destruct idx, r; unfold ack; rewrite run_emit;
      (eexists t, _, _; split; [done|]; split; [|done]);
      cbn [trace]; by rewrite Htrace, <- app_assoc.
  - rewrite run_bind, collect_ops_none. by destruct idx.
Qed.

Lemma update_commit_shape view (w : @world St) :
  match p_private_metadata view with
  | None => crp_update_commit view w = (Thrown SyntaxError, w)
  | Some st =>
      match CLIENTS_get (clientKey st) with
      | None => crp_update_commit view w = (Thrown (TypeError "testsPath"), w)
      | Some _ =>
          ∃ calls a w',
            crp_update_commit view w = (Returned (), w') ∧
            trace w' = trace w ++ calls ++ [ev_ack a] ∧ Forall is_remote_call calls
      end
  end.
Proof.
  destruct (p_private_metadata view) as [st|] eqn:Hmeta; cycle 1.
  { unfold crp_update_commit, JSON_parse. by rewrite Hmeta. }
  destruct (CLIENTS_get (clientKey st)) as [c|] eqn:Hcfg; cycle 1.
  { unfold crp_update_commit, JSON_parse, cfg_get. by rewrite Hmeta, run_ret_bind, Hcfg. }
  destruct (update_commit_run view st c w Hmeta Hcfg) as (t & r & w' & Hrun & Htrace & Hftw).
  eexists t, _, w'. split; [done|]. split; [done|].
  by eapply fetch_then_write_remote_calls.
Qed.

(** X8. A submission handler is all or nothing about the outside: when it
    returns, it has acknowledged exactly once, as its last action, after
    all its remote calls; when it throws or loops, it has done nothing at
    all, no acknowledgement and no remote call. *)
Theorem view_handlers_all_or_nothing (callback : string) (h : view_payload → M unit)
    (view : view_payload) (w : @world St) :
  view_handler callback = Some h →
  match (h view w).1 with
  | Returned _ =>
      ∃ calls a, events_of (h view) w = calls ++ [ev_ack a] ∧ Forall is_remote_call calls
  | _ => (h view w).2 = w
  end.
Proof.
  unfold view_handler. intros Hh. repeat case_bool_decide; [..|done]; injection Hh as <-.
  - destruct (pick_client_test_shape view w) as (calls & a & w' & Hrun & Htrace & Hw & Ha).
    rewrite Hrun. cbn [fst]. exists calls, a.
    split; [eapply events_of_eq; [by rewrite Hrun | done]|].
    destruct a as [|errs|dialog|dialog]; [done|..].
    + by destruct Ha as (-> & _).
    + destruct Ha as (req & e & -> & _). by repeat constructor.
    + destruct Ha as (req & res & st' & -> & _). by repeat constructor.
  - pose proof (collect_variation_count_shape view w) as Hshape.
    destruct (p_private_metadata view); [|by rewrite Hshape].
    destruct Hshape as (a & Hrun). rewrite Hrun. cbn [fst]. exists [], a.
    split; [eapply events_of_eq; [by rewrite Hrun | done] | done].
  - pose proof (create_commit_shape view w) as Hshape.
    destruct (p_private_metadata view) as [st|]; [|by rewrite Hshape].
    destruct (JS.loop_from_1 _) as [idx|]; [|by rewrite Hshape].
    destruct (CLIENTS_get _) as [c|].
    + assert (∃ calls a w',
                crp_create_commit view w = (Returned (), w') ∧
                trace w' = trace w ++ calls ++ [ev_ack a] ∧ Forall is_remote_call calls)
        as (calls & a & w' & Hrun & Htrace & Hcalls) by by destruct idx.
      rewrite Hrun. cbn [fst]. exists calls, a.
      split; [eapply events_of_eq; [by rewrite Hrun | done] | done].
    + destruct idx as [|i idx]; [|by rewrite Hshape].
      rewrite Hshape. cbn [fst]. eexists [], _.
      split; [eapply events_of_eq; [by rewrite Hshape | done] | done].
  - pose proof (update_commit_shape view w) as Hshape.
    destruct (p_private_metadata view) as [st|]; [|by rewrite Hshape].
    destruct (CLIENTS_get _); [|by rewrite Hshape].
    destruct Hshape as (calls & a & w' & Hrun & Htrace & Hcalls).
    rewrite Hrun. cbn [fst]. exists calls, a.
    split; [eapply events_of_eq; [by rewrite Hrun | done] | done].
Qed.

(** X9. When the submission handlers after the first step return: the
    count step exactly when the view carries a state; the update commit
    exactly when it carries a state whose client the configuration
    resolves; the create commit only when it carries a state whose
    client the configuration resolves if there is at least one variation
    to write, and then it does return whenever the two operations of
    each variation fit into an array. *)
Theorem submission_handlers_return_when (view : view_payload) (w : @world St) :
  ((crp_collect_variation_count view w).1 = Returned () ↔
   is_Some (p_private_metadata view)) ∧
  ((crp_update_commit view w).1 = Returned () ↔
   ∃ st, p_private_metadata view = Some st ∧ is_Some (CLIENTS_get (clientKey st))) ∧
  ((crp_create_commit view w).1 = Returned () →
   ∃ st, p_private_metadata view = Some st ∧
         match count_number (count st) with
         | JS.Num z => 1 ≤ z → is_Some (CLIENTS_get (clientKey st))
         | _ => True
         end) ∧
  (∀ st, p_private_metadata view = Some st →
         match count_number (count st) with
         | JS.Num z =>
             2 * z ≤ JS.Array_max_length ∧ (1 ≤ z → is_Some (CLIENTS_get (clientKey st)))
         | _ => True
         end →
         (crp_create_commit view w).1 = Returned ()).
Proof.
  split; [|split].
  - pose proof (collect_variation_count_shape view w) as Hshape.
    destruct (p_private_metadata view) as [st|].
    + destruct Hshape as (a & ->). split; [by eexists | done].
    + rewrite Hshape. split; [done | by intros []].
  - pose proof (update_commit_shape view w) as Hshape.
    destruct (p_private_metadata view) as [st|]; cycle 1.
    { rewrite Hshape. split; [done | by intros (? & ? & _)]. }
    destruct (CLIENTS_get (clientKey st)) as [c|] eqn:Hcfg.
    + destruct Hshape as (calls & a & w' & -> & _). split; [|done].
      intros _. exists st. by rewrite Hcfg.
    + rewrite Hshape. split; [done|]. intros (st' & [= <-] & Hsome).
      rewrite Hcfg in Hsome. by destruct Hsome.
  - pose proof (create_commit_shape view w) as Hshape.
    destruct (p_private_metadata view) as [st|]; cycle 1.
    { rewrite Hshape. split; [done | by intros ? [=]]. }
    split.
    + intros Hret. exists st. split; [done|].
      destruct (count_number (count st)) as [|z|neg]; [done| |done].
      intros Hz. cbn [JS.loop_from_1] in Hshape.
      destruct (Z.ltb_spec z (2 ^ 53)); [|by rewrite Hshape in Hret].
      destruct (Z.to_nat z) as [|k] eqn:Hk; [lia|]. cbn [seq fmap list_fmap] in Hshape.
      destruct (CLIENTS_get (clientKey st)); [done | by rewrite Hshape in Hret].
    + intros st' [= <-] Hcount. unfold JS.Array_max_length in Hcount.
      destruct (count_number (count st)) as [|z|neg] eqn:Hnum.
      * cbn in Hshape.
        destruct (CLIENTS_get _); [by destruct Hshape as (? & ? & ? & -> & _)|by rewrite Hshape].
      * destruct Hcount as [Hz Hcfg]. cbn [JS.loop_from_1] in Hshape.
        destruct (Z.ltb_spec z (2 ^ 53)); [|lia].
        destruct (Z.to_nat z) as [|k] eqn:Hk; cbn [seq fmap list_fmap] in Hshape.
        -- destruct (CLIENTS_get _);
             [by destruct Hshape as (? & ? & ? & -> & _) | by rewrite Hshape].
        -- destruct (CLIENTS_get (clientKey st)) as [c|].
           ++ by destruct Hshape as (? & ? & ? & -> & _).
           ++ destruct Hcfg; [lia|done].
      * by destruct (count st) as [[|]|].
Qed.

(** *** The create commit at its edges *)

(** X10. A create commit whose state has no count, a [null] count or a
    count of zero or less has no variation to write: it makes no remote
    call at all and acknowledges the confirmation, whether or not the
    configuration knows the client. *)
Theorem create_commit_without_variations (view : view_payload) (st : step_state)
    (w : @world St) :
  p_private_metadata view = Some st →
  match count st with Some (JNum z) => z ≤ 0 | _ => True end →
  crp_create_commit view w =
    (Returned (),
     {| remote := remote w;
        trace := trace w ++
          [ev_ack (ack_update
             {| callback_id := "noop"; private_metadata := None;
                title := "Created ✅"; submit := None; close := "Close";
                blocks :=
                  [section ("Created *" +:+ testName st +:+ "* for *" +:+ clientKey st
                            +:+ "* with "
                            +:+ match count st with
                                | Some (JNum z) =>
                                    JS.number_to_string exponent_notation (JS.Num z)
                                | Some JNull => "null"
                                | None => "undefined"
                                end
                            +:+ " variation(s).")] |})] |}).
Proof.
  intros Hmeta Hcount. unfold crp_create_commit, JSON_parse.
  rewrite Hmeta, run_ret_bind.
  assert (JS.loop_from_1 (count_number (count st)) = Some []) as ->.
  { destruct (count st) as [[z|]|]; try done. cbn.
    destruct (Z.ltb_spec z (2 ^ 53)); [|lia]. by replace (Z.to_nat z) with 0%nat by lia. }
  reflexivity.
Qed.

Lemma list_ascii_of_string_app (a b : string) :
  String.list_ascii_of_string (a +:+ b)
  = String.list_ascii_of_string a ++ String.list_ascii_of_string b.
Proof.
  induction a as [|x a IH]; [done|].
  change (x :: String.list_ascii_of_string (a +:+ b)
          = x :: String.list_ascii_of_string a ++ String.list_ascii_of_string b).
  by rewrite IH.
Qed.

Lemma list_ascii_of_string_inj (a b : string) :
  String.list_ascii_of_string a = String.list_ascii_of_string b → a = b.
Proof.
  intros Heq. rewrite <- (String.string_of_list_ascii_of_string a),
    <- (String.string_of_list_ascii_of_string b). by rewrite Heq.
Qed.

(** Two strings that end in suffixes of the same length are equal only if
    the suffixes and what comes before them are. *)
Lemma string_app_inj_suffix (a b s1 s2 : string) :
  String.length s1 = String.length s2 → a +:+ s1 = b +:+ s2 → a = b ∧ s1 = s2.
Proof.
  intros Hlen Heq. apply (f_equal String.list_ascii_of_string) in Heq.
  rewrite !list_ascii_of_string_app in Heq.
  apply app_inj_2 in Heq as [Ha Hs].
  - split; by apply list_ascii_of_string_inj.
  - rewrite <- (String.string_of_list_ascii_of_string s1),
      <- (String.string_of_list_ascii_of_string s2) in Hlen.
    revert Hlen. generalize (String.list_ascii_of_string s1).
    generalize (String.list_ascii_of_string s2).
    intros l2 l1. revert l2. induction l1 as [|x l1 IH]; intros [|y l2]; cbn; try done.
    intros [= Hlen]. f_equal. by apply IH.
Qed.

Lemma variation_paths_NoDup (base : string) (n : nat) : NoDup (variation_paths base n).
Proof.
  unfold variation_paths. apply NoDup_bind.
  - intros i j y _ _ Hi Hj.
    assert (∀ k : Z, y ∈ [base +:+ "/var-" +:+ pretty k +:+ ".js";
                      base +:+ "/var-" +:+ pretty k +:+ ".css"] →
                 ∃ ext, (ext = ".js" ∨ ext = ".css") ∧
                        y = base +:+ "/var-" +:+ pretty k +:+ ext) as Hform.
    { intros k [->|[->|[]%elem_of_nil]%elem_of_cons]%elem_of_cons; eauto. }
    apply Hform in Hi as (e1 & He1 & ->). apply Hform in Hj as (e2 & He2 & Heq).
    apply (inj (String.app base)), (inj (String.app "/var-")) in Heq.
    destruct He1 as [->| ->], He2 as [->| ->].
    + apply string_app_inj_suffix in Heq as [Heq _]; [|done]. by apply (inj pretty).
    + change (pretty j +:+ ".css") with (pretty j +:+ "." +:+ "css") in Heq.
      rewrite <- (string_app_assoc (pretty j)) in Heq.
      by apply string_app_inj_suffix in Heq as [_ ?].
    + change (pretty i +:+ ".css") with (pretty i +:+ "." +:+ "css") in Heq.
      rewrite <- (string_app_assoc (pretty i)) in Heq.
      by apply string_app_inj_suffix in Heq as [_ ?].
    + apply string_app_inj_suffix in Heq as [Heq _]; [|done]. by apply (inj pretty).
  - intros i _. apply NoDup_cons. split; [|apply NoDup_singleton].
    intros Hin%list_elem_of_singleton.
    rewrite <- !(string_app_assoc _ _ ".js"), <- !(string_app_assoc _ _ ".css") in Hin.
    by apply js_css_differ in Hin.
  - apply NoDup_fmap_2; [|apply NoDup_seq]. intros ???. lia.
Qed.

(** *** From one dialog to the next *)

(** X12. The count step and the create commit fit together: whatever is
    typed as count, the dialog the count step acknowledges can be
    submitted, its submission is routed to the create commit, and for a
    configured client that commit returns, with writes that are a prefix
    of the 2n paths of the n variations counted, n between 1 and 5, the
    very variations whose fields the dialog shows. *)
Theorem count_step_then_create_commit (view : view_payload) (st : step_state)
    (c : client_cfg) (w w2 : @world St) (view_id : string) (values : view_state) :
  p_private_metadata view = Some st →
  CLIENTS !! clientKey st = Some c →
  ∃ dialog (n : nat),
    events_of (crp_collect_variation_count view) w = [ev_ack (ack_update dialog)] ∧
    (1 ≤ n ≤ 5)%nat ∧
    blocks dialog = snippet_fields (Z.of_nat n) ∧
    dispatch view_id dialog (Submit values)
      = Some (crp_create_commit (payload view_id dialog values)) ∧
    (crp_create_commit (payload view_id dialog values) w2).1 = Returned () ∧
    (w_path <$> writes (events_of (crp_create_commit (payload view_id dialog values)) w2))
      `prefix_of` variation_paths (testsPath c +:+ "/" +:+ testName st) n.
Proof.
  intros Hmeta Hcfg.
  destruct (collect_variation_count_run view st w Hmeta) as (k & Hk & _ & Hrun).
  eexists _, (Z.to_nat k). split; [eapply events_of_eq; [by rewrite Hrun | done]|].
  split; [lia|]. rewrite Z2Nat.id by lia. split; [done|]. split; [done|].
  match goal with |- context [payload view_id ?d values] => set (dialog := d) end.
  destruct (create_commit_run (payload view_id dialog values)
              {| clientKey := clientKey st; testName := testName st; exists_ := None;
                 count := Some (JNum k) |} (OwnCfg c) k w2)
    as (t & r & w' & Hrun' & Htrace & Hups);
    [done | by apply CLIENTS_get_own | done | lia |].
  split; [by rewrite Hrun'|].
  erewrite events_of_eq; [|by rewrite Hrun'|exact Htrace].
  unfold writes. rewrite omap_app. cbn [omap write_of]. rewrite app_nil_r.
  by apply upserts_writes_prefix in Hups.
Qed.

Lemma pick_client_test_events (view : view_payload) (w : @world St) :
  (∃ errs, events_of (crp_pick_client_test view) w = [ev_ack (ack_errors errs)]) ∨
  (∃ req res e,
     events_of (crp_pick_client_test view) w
       = [ev_getContent req res; ev_ack (ack_update (check_failed_view e))]) ∨
  (∃ req res key name flag dir cfg,
     events_of (crp_pick_client_test view) w
       = [ev_getContent req res; ev_ack (ack_push (update_or_create_view key name flag dir))] ∧
     CLIENTS_get key = Some cfg ∧
     g_path req = tmpl (cfg_testsPath cfg) +:+ "/" +:+ name).
Proof.
  unfold crp_pick_client_test.
  destruct (getStateValue (state view) "client_block" "client_select") as [key|];
    cycle 1.
  { left. eexists. eapply events_of_eq; [by unfold ack; rewrite run_emit | done]. }
  set (name := JS.trim _). destruct (JS.truthy name); cycle 1.
  { left. eexists. eapply events_of_eq; [by unfold ack; rewrite run_emit | done]. }
  destruct (CLIENTS_get key) as [cfg|] eqn:Hcfg; cycle 1.
  { left. eexists. eapply events_of_eq; [by unfold ack; rewrite run_emit | done]. }
  right.
  match goal with |- context [githubGetFileSha ?o ?r ?p ?b] =>
    set (req := {| g_owner := o; g_repo := r; g_path := p; g_ref := b |}) end.
  destruct (octokit_getContent req (remote w)) as [res s] eqn:Hget.
  destruct (failure (ev_getContent req res)) as [e|] eqn:Hfail.
  - left. exists req, res, e.
    apply (events_of_eq _ w
             {| remote := s;
                trace := (trace w ++ [ev_getContent req res])
                         ++ [ev_ack (ack_update (check_failed_view e))] |});
      [|cbn [trace]; by rewrite <- app_assoc].
    rewrite run_bind. unfold try_catch. rewrite run_bind, githubGetFileSha_run.
    fold req. rewrite Hget. cbn [fst snd]. rewrite Hfail.
    rewrite run_bind. unfold ack. by rewrite run_emit, run_ret.
  - right. eexists req, res, key, name, _, _, cfg. split; [|done].
    eapply events_of_eq.
    + rewrite run_bind. unfold try_catch. rewrite run_bind, githubGetFileSha_run.
      fold req. rewrite Hget. cbn [fst snd]. rewrite Hfail, run_ret.
      unfold ack. by rewrite run_emit.
    + cbn [trace]. by rewrite <- app_assoc.
Qed.

(** X13. What can be done with the dialog the first step pushes: "Create
    New" always reaches [choose_create]; "Update Existing" reaches
    [choose_update] exactly when the existence flag in the state is
    true; the dialog cannot be submitted and no other action has a
    handler. *)
Theorem choice_dialog_routes (submitted : view_payload) (w : @world St) (dialog : view)
    (view_id : string) :
  ev_ack (ack_push dialog) ∈ events_of (crp_pick_client_test submitted) w →
  ∃ st,
    private_metadata dialog = Some st ∧
    dispatch view_id dialog (Click "choose_create")
      = Some (choose_create (payload view_id dialog ∅)) ∧
    dispatch view_id dialog (Click "choose_update")
      = (if exists_ st is Some true
         then Some (choose_update (payload view_id dialog ∅)) else None) ∧
    (∀ values, dispatch view_id dialog (Submit values) = None) ∧
    (∀ action, action ≠ "choose_create" → action ≠ "choose_update" →
               dispatch view_id dialog (Click action) = None).
Proof.
  intros Hin.
  assert (∃ key name flag dir, dialog = update_or_create_view key name flag dir)
    as (key & name & flag & dir & ->).
  { destruct (pick_client_test_events submitted w)
      as [(errs & Hev)|[(req & res & e & Hev)
                        |(req & res & key & name & flag & dir & cfg & Hev & _)]];
      rewrite Hev in Hin.
    - by apply list_elem_of_singleton in Hin.
    - apply elem_of_cons in Hin as [?|Hin]; [done|]. by apply list_elem_of_singleton in Hin.
    - apply elem_of_cons in Hin as [?|Hin]; [done|].
      apply list_elem_of_singleton in Hin. injection Hin as ->. eauto. }
  eexists. split; [done|]. cbn [exists_].
  split; [by destruct flag|]. split; [by destruct flag|]. split; [done|].
  intros action Hc Hu. unfold dispatch.
  rewrite bool_decide_eq_false_2; [done|].
  destruct flag; cbn; intros Hin';
    repeat (apply elem_of_cons in Hin' as [?|Hin']; [done|]); by apply elem_of_nil in Hin'.
Qed.

(** What [choose_create] does, in full. *)
Lemma choose_create_shape (body_view : view_payload) (w : @world St) :
  ∃ dialog res,
    (choose_create body_view w).1 = Returned () ∧
    events_of (choose_create body_view) w =
      ev_ack ack_empty :: ev_views_update (id body_view) dialog res
      :: (if res is Some e then [ev_console_error "choose_create update error:" e] else []) ∧
    private_metadata dialog = p_private_metadata body_view ∧
    (∀ view_id values,
       dispatch view_id dialog (Submit values)
         = Some (crp_collect_variation_count (payload view_id dialog values))).
Proof.
  exists (variation_count_view (p_private_metadata body_view)).
  unfold choose_create, ack, try_catch, views_update.
  destruct (client_views_update (id body_view)
              (variation_count_view (p_private_metadata body_view)) (remote w))
    as [res s] eqn:Hcall.
  exists res. split; [|split; [|done]].
  - rewrite run_bind, run_emit. cbn [remote trace]. rewrite Hcall. by destruct res.
  - destruct res as [e|].
    + eapply events_of_eq.
      * rewrite run_bind, run_emit. cbn [remote trace]. rewrite Hcall, run_emit. done.
      * cbn [trace]. by rewrite <- !app_assoc.
    + eapply events_of_eq.
      * rewrite run_bind, run_emit. cbn [remote trace]. rewrite Hcall. done.
      * cbn [trace]. by rewrite <- !app_assoc.
Qed.

(** X14. "Create New" never fails: [choose_create] acknowledges first,
    then replaces the dialog by the count dialog, which carries the step
    state exactly as the clicked dialog had it and whose submission is
    routed to the count step; when [views.update] fails the error is
    logged and the handler still returns. *)
Theorem choose_create_never_throws (body_view : view_payload) (w : @world St) :
  ∃ dialog res,
    (choose_create body_view w).1 = Returned () ∧
    events_of (choose_create body_view) w =
      ev_ack ack_empty :: ev_views_update (id body_view) dialog res
      :: (if res is Some e then [ev_console_error "choose_create update error:" e] else []) ∧
    private_metadata dialog = p_private_metadata body_view ∧
    (∀ view_id values,
       dispatch view_id dialog (Submit values)
         = Some (crp_collect_variation_count (payload view_id dialog values))).
Proof. apply choose_create_shape. Qed.

(** X15. "Update Existing" acknowledges before anything else, and then
    may fail: without a state it throws on parsing it, with a client the
    configuration does not resolve it throws on reading its base path,
    and a failure of [views.update] is thrown on as it came, not logged;
    otherwise it shows the update dialog, which carries the state
    unchanged. *)
Theorem choose_update_outcomes (body_view : view_payload) (w : @world St) :
  ∃ tail,
    events_of (choose_update body_view) w = ev_ack ack_empty :: tail ∧
    match p_private_metadata body_view with
    | None => (choose_update body_view w).1 = Thrown SyntaxError ∧ tail = []
    | Some st =>
        match CLIENTS_get (clientKey st) with
        | None => (choose_update body_view w).1 = Thrown (TypeError "testsPath") ∧ tail = []
        | Some cfg =>
            ∃ dialog res,
              tail = [ev_views_update (id body_view) dialog res] ∧
              callback_id dialog = "crp_update_commit" ∧
              private_metadata dialog = Some st ∧
              (choose_update body_view w).1
                = (if res is Some e then Thrown e else Returned ())
        end
    end.
Proof.
  destruct (p_private_metadata body_view) as [st|] eqn:Hmeta; cycle 1.
  { assert (choose_update body_view w =
            (Thrown SyntaxError,
             {| remote := remote w; trace := trace w ++ [ev_ack ack_empty] |})) as Hrun.
    { unfold choose_update, ack, JSON_parse. by rewrite Hmeta, run_bind, run_emit. }
    exists []. split; [eapply events_of_eq; [by rewrite Hrun | done] | by rewrite Hrun]. }
  destruct (CLIENTS_get (clientKey st)) as [c|] eqn:Hcfg; cycle 1.
  { assert (choose_update body_view w =
            (Thrown (TypeError "testsPath"),
             {| remote := remote w; trace := trace w ++ [ev_ack ack_empty] |})) as Hrun.
    { unfold choose_update, ack, JSON_parse, cfg_get.
      by rewrite Hmeta, run_bind, run_emit, run_ret_bind, Hcfg. }
    exists []. split; [eapply events_of_eq; [by rewrite Hrun | done] | by rewrite Hrun]. }
  set (baseDir := tmpl (cfg_testsPath c) +:+ "/" +:+ testName st).
  destruct (client_views_update (id body_view) (update_view (Some st) baseDir) (remote w))
    as [res s] eqn:Hcall.
  assert (choose_update body_view w =
          (if res is Some e then Thrown e else Returned (),
           {| remote := s;
              trace := (trace w ++ [ev_ack ack_empty]) ++
                [ev_views_update (id body_view) (update_view (Some st) baseDir) res] |}))
    as Hrun.
  { unfold choose_update, ack, JSON_parse, cfg_get.
    rewrite Hmeta, run_bind, run_emit, run_ret_bind, Hcfg, run_ret_bind.
    unfold views_update. cbn [remote trace]. fold baseDir. rewrite Hcall. by destruct res. }
  exists [ev_views_update (id body_view) (update_view (Some st) baseDir) res].
  split.
  - eapply events_of_eq; [by rewrite Hrun | cbn [trace]; by rewrite <- !app_assoc].
  - eexists _, res. split; [done|]. split; [done|]. split; [done|]. by rewrite Hrun.
Qed.

(** X16. The commits write inside the directory the first step checked:
    when the first step read the path [dir] and pushed the choice dialog,
    every write of a create commit or an update commit whose state has
    the client identifier and the test name of that dialog goes to a path
    [dir]/var-..., whatever else is submitted with it. *)
Theorem commits_write_under_checked_directory (submitted commit : view_payload)
    (w w2 : @world St) (req : get_request) (res : js_error + content_data)
    (dialog : view) (st0 st : step_state) :
  events_of (crp_pick_client_test submitted) w
    = [ev_getContent req res; ev_ack (ack_push dialog)] →
  private_metadata dialog = Some st0 →
  p_private_metadata commit = Some st →
  clientKey st = clientKey st0 →
  testName st = testName st0 →
  Forall (λ wreq, ∃ file, w_path wreq = g_path req +:+ "/var-" +:+ file)
         (writes (events_of (crp_update_commit commit) w2)) ∧
  Forall (λ wreq, ∃ file, w_path wreq = g_path req +:+ "/var-" +:+ file)
         (writes (events_of (crp_create_commit commit) w2)).
Proof.
  intros Hev Hst0 Hmeta Hkey Hname.
  destruct (pick_client_test_events submitted w)
    as [(errs & Hev')|[(req' & res' & e & Hev')
                      |(req' & res' & key & name & flag & dir & cfg & Hev' & Hcfg & Hpath)]];
    rewrite Hev in Hev'; try done.
  injection Hev' as -> -> ->. cbn [private_metadata update_or_create_view] in Hst0.
  injection Hst0 as <-. cbn [clientKey testName] in Hkey, Hname.
  rewrite <- Hkey in Hcfg. rewrite Hpath, <- Hname.
  set (base := tmpl (cfg_testsPath cfg) +:+ "/" +:+ testName st).
  split; apply Forall_writes, emits_events; intros w'.
  - unfold crp_update_commit, JSON_parse, cfg_get.
    rewrite Hmeta, run_ret_bind, Hcfg, run_ret_bind.
    revert w'. apply emits_try_catch; [|intros e; by apply emits_emit].
    intros w'. rewrite run_ret_bind. cbv beta. rewrite run_ret_bind. cbv beta. revert w'.
    apply emits_bind; [by apply emits_githubGetFileSha|]. intros jsSha.
    apply emits_bind; [by apply emits_githubGetFileSha|]. intros cssSha.
    apply emits_bind.
    { apply emits_githubWriteFile. intros _. eexists. cbn [w_path]. unfold base.
      by rewrite !string_app_assoc. }
    intros _. apply emits_bind; [|intros _; by apply emits_emit].
    apply emits_githubWriteFile. intros _. eexists. cbn [w_path]. unfold base.
    by rewrite !string_app_assoc.
  - unfold crp_create_commit, JSON_parse. rewrite Hmeta, run_ret_bind, Hcfg.
    destruct (JS.loop_from_1 _) as [idx|]; [|by exists []; rewrite app_nil_r].
    destruct (collect_ops_some commit st cfg idx w') as (ops & Hrun & Hpaths).
    rewrite run_bind, Hrun. clear Hrun. revert w'.
    apply emits_try_catch; [|intros e; by apply emits_emit].
    apply emits_bind; [|intros _; by apply emits_emit].
    apply emits_write_ops; [done|].
    intros op sha res'' Hin. cbn [w_path].
    assert (path op ∈ path <$> ops) as Hin' by (apply list_elem_of_fmap; eauto).
    rewrite Hpaths in Hin'. apply list_elem_of_bind in Hin' as (i & Hi & _).
    fold base in Hi.
    apply elem_of_cons in Hi as [->|Hi]; [eauto|].
    apply list_elem_of_singleton in Hi as ->. eauto.
Qed.

(** *** From the slash command to the first step *)

Lemma submitted_state_values (keys : list string) (picked typed : option string) b a :
  Entry.submitted_state (Entry.crp_view keys) picked typed !! b ≫= (.!! a) =
    if bool_decide (b = "client_block" ∧ a = "client_select")
    then Some {| value := None; selected_option := picked |}
    else if bool_decide (b = "testname_block" ∧ a = "test_name")
         then Some {| value := typed; selected_option := None |}
         else None.
Proof.
  unfold Entry.submitted_state. cbn [Entry.crp_view Entry.blocks foldr Entry.el Entry.block_id].
  destruct (decide (b = "client_block")) as [->|Hb].
  - rewrite lookup_insert_eq. cbn [mbind option_bind].
    destruct (decide (a = "client_select")) as [->|Ha].
    + by rewrite lookup_singleton_eq.
    + rewrite lookup_singleton_ne by done.
      rewrite bool_decide_eq_false_2 by (by intros [_ ?]).
      by rewrite bool_decide_eq_false_2 by (by intros [? _]).
  - rewrite lookup_insert_ne by done.
    rewrite bool_decide_eq_false_2 by (by intros [? _]).
    destruct (decide (b = "testname_block")) as [->|Hb'].
    + rewrite lookup_insert_eq. cbn [mbind option_bind].
      destruct (decide (a = "test_name")) as [->|Ha].
      * by rewrite lookup_singleton_eq.
      * rewrite lookup_singleton_ne by done.
        by rewrite bool_decide_eq_false_2 by (by intros [_ ?]).
    + rewrite lookup_insert_ne by done. rewrite lookup_empty.
      by rewrite bool_decide_eq_false_2 by (by intros [? _]).
Qed.

Lemma options_of_crp_view (keys : list string) (o : Entry.option_object) :
  o ∈ Entry.options_of (Entry.crp_view keys) ↔
  ∃ k, k ∈ keys ∧ o = {| Entry.o_text := k; Entry.o_value := k |}.
Proof.
  unfold Entry.options_of.
  cbn [Entry.crp_view Entry.blocks mbind list_bind Entry.el Entry.clientOptions].
  rewrite app_nil_r. unfold Entry.clientOptions. rewrite list_elem_of_fmap.
  split; intros (k & ? & ?); eauto.
Qed.

(** X19. The first modal and the first step fit together: submissions of
    the view the command opens are routed to the first step, and when the
    user picks any client the menu offers (its identifier not empty) and
    types a name that is not blank, the step finds both under the ids
    the view gave them, takes the client for known, and queries the
    repository of that client for base path "/" trimmed name; it
    annotates nothing. *)
Theorem offered_client_passes_validation (keys : list string) (o : Entry.option_object)
    (typed view_id : string) (w : @world St) :
  Entry.Object_keys CLIENTS keys →
  o ∈ Entry.options_of (Entry.crp_view keys) →
  Entry.o_value o ≠ "" →
  JS.trim typed ≠ "" →
  let submission :=
    {| id := view_id; p_callback_id := Entry.callback_id (Entry.crp_view keys);
       p_private_metadata := None;
       state := Entry.submitted_state (Entry.crp_view keys)
                  (Some (Entry.o_value o)) (Some typed) |} in
  view_handler (Entry.callback_id (Entry.crp_view keys)) = Some crp_pick_client_test ∧
  ∃ c req res a,
    CLIENTS !! Entry.o_value o = Some c ∧
    events_of (crp_pick_client_test submission) w = [ev_getContent req res; ev_ack a] ∧
    g_owner req = Some (owner c) ∧ g_repo req = Some (repo c) ∧
    g_path req = testsPath c +:+ "/" +:+ JS.trim typed ∧
    (∀ errs, a ≠ ack_errors errs).
Proof.
  intros [_ Hkeys] Ho Hvalue Hname submission. split; [done|].
  apply options_of_crp_view in Ho as (k & Hk & ->). cbn [Entry.o_value] in *.
  apply Hkeys in Hk as [c Hc]. exists c.
  assert (typed ≠ "") as Htyped by (by intros ->).
  assert (getStateValue (state submission) "client_block" "client_select" = Some k) as Hsel.
  { unfold getStateValue. cbn [state submission]. rewrite submitted_state_values.
    cbn. by destruct k. }
  assert (getStateValue (state submission) "testname_block" "test_name" = Some typed)
    as Htext.
  { unfold getStateValue. cbn [state submission]. rewrite submitted_state_values.
    cbn. by destruct typed. }
  set (req := {| g_owner := Some (owner c); g_repo := Some (repo c);
                 g_path := testsPath c +:+ "/" +:+ JS.trim typed;
                 g_ref := DEFAULT_BRANCH |}).
  destruct (octokit_getContent req (remote w)) as [res s] eqn:Hget.
  assert (JS.or_default (Some typed) "" = typed) as Hdef by (by destruct typed).
  assert (JS.truthy (JS.trim typed) = true) as Htruthy by (by destruct (JS.trim typed)).
  destruct (failure (ev_getContent req res)) as [e|] eqn:Hfail.
  - exists req, res, (ack_update (check_failed_view e)). split; [done|].
    split; [|done].
    apply (events_of_eq _ w
             {| remote := s;
                trace := (trace w ++ [ev_getContent req res])
                         ++ [ev_ack (ack_update (check_failed_view e))] |});
      [|cbn [trace]; by rewrite <- app_assoc].
    unfold crp_pick_client_test. rewrite Hsel, Htext, Hdef, Htruthy.
    rewrite (CLIENTS_get_own _ _ Hc). cbn [cfg_testsPath cfg_owner cfg_repo].
    rewrite tmpl_some, run_bind. unfold try_catch.
    rewrite run_bind, githubGetFileSha_run. fold req. rewrite Hget. cbn [fst snd].
    rewrite Hfail, run_bind. unfold ack. by rewrite run_emit, run_ret.
  - eexists req, res, (ack_push _). split; [done|]. split; [|done].
    eapply events_of_eq.
    + unfold crp_pick_client_test. rewrite Hsel, Htext, Hdef, Htruthy.
      rewrite (CLIENTS_get_own _ _ Hc). cbn [cfg_testsPath cfg_owner cfg_repo].
      rewrite tmpl_some, run_bind. unfold try_catch.
      rewrite run_bind, githubGetFileSha_run. fold req. rewrite Hget. cbn [fst snd].
      rewrite Hfail, run_ret. unfold ack. by rewrite run_emit.
    + cbn [trace]. by rewrite <- app_assoc.
Qed.

(** X20. A client whose identifier is the empty string cannot be used:
    the menu offers it when the configuration has it, but a submission
    with it picked is answered like one with nothing picked, by the
    annotation "Please select a client." and no remote call. *)
Theorem empty_client_identifier_is_unusable (keys : list string) (typed view_id : string)
    (w : @world St) :
  Entry.Object_keys CLIENTS keys →
  is_Some (CLIENTS !! "") →
  let submission :=
    {| id := view_id; p_callback_id := Entry.callback_id (Entry.crp_view keys);
       p_private_metadata := None;
       state := Entry.submitted_state (Entry.crp_view keys) (Some "") (Some typed) |} in
  {| Entry.o_text := ""; Entry.o_value := "" |} ∈ Entry.options_of (Entry.crp_view keys) ∧
  ∃ errs,
    events_of (crp_pick_client_test submission) w = [ev_ack (ack_errors errs)] ∧
    ("client_block", "Please select a client.") ∈ errs.
Proof.
  intros [_ Hkeys] Hsome submission. split.
  { apply options_of_crp_view. exists "". split; [by apply Hkeys | done]. }
  assert (getStateValue (state submission) "client_block" "client_select" = None) as Hsel.
  { unfold getStateValue. cbn [state submission]. by rewrite submitted_state_values. }
  eexists. split.
  - eapply events_of_eq.
    + unfold crp_pick_client_test. rewrite Hsel. unfold ack. by rewrite run_emit.
    + done.
  - apply elem_of_app. left. by apply list_elem_of_singleton.
Qed.

(** *** What the handlers never do *)

Lemma upserts_reads_prefix ps t r : upserts ps t r → (g_path <$> reads t) `prefix_of` ps.
Proof.
  induction 1 as [|p ps greq e <- _|p ps greq gres wreq e <- _ _ _
                 |p ps greq gres wreq t r <- _ _ _ _ IH]; cbn.
  - done.
  - apply prefix_cons, prefix_nil.
  - apply prefix_cons, prefix_nil.
  - by apply prefix_cons.
Qed.

Lemma fetch_then_write_reads_prefix p1 p2 t r :
  fetch_then_write p1 p2 t r → (g_path <$> reads t) `prefix_of` [p1; p2].
Proof.
  destruct 1 as [g1 e <- _|g1 r1 g2 e <- _ <- _|g1 r1 g2 r2 w1 e <- _ <- _ _ _
                |g1 r1 g2 r2 w1 w2 res <- _ <- _ _ _ _ _]; cbn; try done.
  apply prefix_cons, prefix_nil.
Qed.

Lemma prefix_NoDup {A} (l k : list A) : l `prefix_of` k → NoDup k → NoDup l.
Proof. intros [k' ->] Hnd. by apply NoDup_app in Hnd as [? _]. Qed.

(** X21. No commit repeats a remote call: within one run of the create
    commit or of the update commit no path is read twice and no path is
    written twice, whatever the remote answers. *)
Theorem commits_never_repeat_a_call (view : view_payload) (st : step_state)
    (cfg : cfg_value) (w : @world St) :
  p_private_metadata view = Some st →
  CLIENTS_get (clientKey st) = Some cfg →
  (NoDup (g_path <$> reads (events_of (crp_create_commit view) w)) ∧
   NoDup (w_path <$> writes (events_of (crp_create_commit view) w))) ∧
  (NoDup (g_path <$> reads (events_of (crp_update_commit view) w)) ∧
   NoDup (w_path <$> writes (events_of (crp_update_commit view) w))).
Proof.
  intros Hmeta Hcfg. split.
  - destruct (count_number (count st)) as [|n|neg] eqn:Hcount.
    + pose proof (create_commit_shape view w) as Hshape.
      rewrite Hmeta, Hcount, Hcfg in Hshape. cbn [JS.loop_from_1] in Hshape.
      destruct (collect_ops_some view st cfg [] w) as (ops & Hops & _).
      assert (events_of (crp_create_commit view) w = [ev_ack (ack_update (created_view st))])
        as ->.
      { eapply events_of_eq;
          [unfold crp_create_commit, JSON_parse;
           by rewrite Hmeta, run_ret_bind, Hcfg, Hcount | done]. }
      split; constructor.
    + destruct (Z.ltb_spec n (2 ^ 53)) as [Hn|Hn]; cycle 1.
      { assert (events_of (crp_create_commit view) w = []) as ->.
        { apply (events_of_eq _ w w); [|by rewrite app_nil_r].
          pose proof (create_commit_shape view w) as Hshape.
          rewrite Hmeta, Hcount in Hshape. cbn [JS.loop_from_1] in Hshape.
          destruct (Z.ltb_spec n (2 ^ 53)); [lia|]. by rewrite Hshape. }
        split; constructor. }
      destruct (create_commit_run view st cfg n w Hmeta Hcfg Hcount Hn)
        as (t & r & w' & Hrun & Htrace & Hups).
      erewrite events_of_eq; [|by rewrite Hrun|exact Htrace].
      unfold reads, writes. rewrite !omap_app. cbn [omap read_of write_of].
      rewrite !app_nil_r. split.
      * eapply prefix_NoDup; [by eapply upserts_reads_prefix | apply variation_paths_NoDup].
      * eapply prefix_NoDup; [by eapply upserts_writes_prefix | apply variation_paths_NoDup].
    + by destruct (count st) as [[|]|].
  - destruct (update_commit_run view st cfg w Hmeta Hcfg) as (t & r & w' & Hrun & Htrace & Hftw).
    erewrite events_of_eq; [|by rewrite Hrun|exact Htrace].
    unfold reads, writes. rewrite !omap_app. cbn [omap read_of write_of].
    rewrite !app_nil_r.
    match type of Hftw with fetch_then_write ?p1 ?p2 _ _ =>
      assert (NoDup [p1; p2]) as Hnd end.
    { apply NoDup_cons. split; [|apply NoDup_singleton].
      intros Hin%list_elem_of_singleton.
      rewrite <- !(string_app_assoc _ _ ".js"), <- !(string_app_assoc _ _ ".css") in Hin.
      by apply js_css_differ in Hin. }
    split.
    + eapply prefix_NoDup; [by eapply fetch_then_write_reads_prefix | done].
    + eapply prefix_NoDup; [by eapply fetch_then_write_prefix | done].
Qed.

(** X22. Only the commits write, and only the first step and the commits
    call the remote at all: the first step never writes, and the count
    step and the two button handlers make no remote call, whatever they
    are given. *)
Theorem only_commits_write (view : view_payload) (w : @world St) :
  writes (events_of (crp_pick_client_test view) w) = [] ∧
  Forall (λ ev, is_remote_call ev = false)
         (events_of (crp_collect_variation_count view) w) ∧
  Forall (λ ev, is_remote_call ev = false) (events_of (choose_create view) w) ∧
  Forall (λ ev, is_remote_call ev = false) (events_of (choose_update view) w).
Proof.
  split; [|split; [|split]].
  - destruct (pick_client_test_events view w)
      as [(errs & ->)|[(req & res & e & ->)
                      |(req & res & key & name & flag & dir & cfg & -> & _)]]; done.
  - pose proof (collect_variation_count_shape view w) as Hshape.
    destruct (p_private_metadata view).
    + destruct Hshape as (a & Hrun).
      erewrite events_of_eq; [|by rewrite Hrun|done]. by repeat constructor.
    + erewrite (events_of_eq _ w w []); [done|by rewrite Hshape|by rewrite app_nil_r].
  - destruct (choose_create_shape view w) as (dialog & res & _ & -> & _).
    destruct res; by repeat constructor.
  - destruct (choose_update_events view w) as [->|(res & baseDir & ->)];
      by repeat constructor.
Qed.

(** X23. A commit ends the flow: every dialog the create commit or the
    update commit shows carries no state, has no submit button and no
    button, and no action on it has a handler. *)
Theorem commits_end_the_flow (submitted : view_payload) (w : @world St) (v' : view) :
  Some v' ∈ shown <$> events_of (crp_create_commit submitted) w ∨
  Some v' ∈ shown <$> events_of (crp_update_commit submitted) w →
  terminal v' ∧ ∀ view_id a, dispatch view_id v' a = None.
Proof.
  intros Hshown.
  assert (terminal v') as Hterm.
  { assert (∀ t tail, Forall is_remote_call t → terminal_tail tail →
                      Some v' ∈ shown <$> t ++ tail → terminal v') as Hgen.
    { intros t tail Hcalls Htail Hin. rewrite fmap_app in Hin.
      apply elem_of_app in Hin as [Hin|Hin].
      - apply list_elem_of_fmap in Hin as (ev & Hev & Hin).
        rewrite Forall_forall in Hcalls. apply Hcalls in Hin. by destruct ev.
      - destruct Htail as [->|(dialog & -> & Hd)]; [by apply elem_of_nil in Hin|].
        apply list_elem_of_singleton in Hin. by injection Hin as ->. }
    destruct Hshown as [Hin|Hin].
    - destruct (create_commit_events submitted w) as (ps & t & r & tail & Hev & Hups & Htail).
      rewrite Hev in Hin. eapply Hgen; [by eapply upserts_remote_calls | done | done].
    - destruct (update_commit_events submitted w) as (t & tail & Hev & _ & Hcalls & Htail).
      rewrite Hev in Hin. by eapply Hgen. }
  split; [done|]. destruct Hterm as (_ & _ & Hsubmit & Hbuttons).
  intros view_id [values|action]; unfold dispatch.
  - by rewrite Hsubmit.
  - rewrite Hbuttons. rewrite bool_decide_eq_false_2; [done | apply not_elem_of_nil].
Qed.

(** X11. The clamp of the count step is stable through the text field:
    typing the count a first submission gave produces that same count
    again. *)
Theorem clamp_count_idempotent (raw : string) :
  clamp_count (JS.number_to_string exponent_notation (clamp_count raw)) = clamp_count raw.
Proof.
  destruct (clamp_count_cases raw) as (c & -> & Hc & _).
  assert (c = 1 ∨ c = 2 ∨ c = 3 ∨ c = 4 ∨ c = 5) as [->|[->|[->|[->| ->]]]] by lia;
    reflexivity.
Qed.

End MoreProperties.

(** ** The further properties on the scenarios *)

Import Scenario2.

Lemma create_commit_write_requests_witness :
  (p_private_metadata create_step = Some (hero None (Some (JNum 1))) ∧
   CLIENTS (Outside := fresh) !! "acme" = Some acme) ∧
  Forall (λ wreq, w_branch wreq = "main" ∧ w_owner wreq = Some "acme-org")
         (writes (events_of (crp_create_commit (outside:=fresh) create_step) start)).
Proof.
  split; [split; [reflexivity | vm_compute; reflexivity]|].
  eapply Forall_impl.
  - apply (create_commit_write_requests (outside:=fresh) create_step
             (hero None (Some (JNum 1))) acme 1 start);
      [reflexivity | vm_compute; reflexivity | reflexivity].
  - intros wreq (i & kind & _ & _ & Ho & _ & _ & _ & _ & Hb). split; [exact Hb | exact Ho].
Defined.

Lemma commits_stay_in_client_repository_witness :
  (p_private_metadata (update_step "2") = Some (hero (Some true) None) ∧
   CLIENTS_get (outside:=existing) "acme" = Some (OwnCfg acme)) ∧
  Forall (call_for (outside:=existing) (OwnCfg acme))
         (events_of (crp_update_commit (outside:=existing) (update_step "2")) start).
Proof.
  split; [split; [reflexivity | vm_compute; reflexivity]|].
  apply (commits_stay_in_client_repository (outside:=existing) (update_step "2")
           (hero (Some true) None) (OwnCfg acme) start);
    [reflexivity | vm_compute; reflexivity].
Defined.

Lemma update_commit_reads_then_writes_witness :
  (p_private_metadata (update_step "2") = Some (hero (Some true) None) ∧
   CLIENTS (Outside := existing) !! "acme" = Some acme) ∧
  ∃ calls dialog w',
    crp_update_commit (outside:=existing) (update_step "2") start = (Returned (), w') ∧
    trace w' = calls ++ [ev_ack (ack_update dialog)] ∧
    Forall is_remote_call calls.
Proof.
  split; [split; [reflexivity | vm_compute; reflexivity]|].
  destruct (update_commit_reads_then_writes (outside:=existing) (update_step "2")
              (hero (Some true) None) acme start)
    as (calls & dialog & w' & Hrun & Htrace & Hcalls & _);
    [reflexivity | vm_compute; reflexivity |].
  exists calls, dialog, w'. split; [exact Hrun|]. split; [exact Htrace | exact Hcalls].
Defined.

Lemma update_commit_blank_index_witness :
  (p_private_metadata update_step_blank = Some (hero (Some true) None) ∧
   CLIENTS (Outside := existing) !! "acme" = Some acme ∧
   getStateValue (state update_step_blank) "var_id" "val" = None) ∧
  (w_path <$> writes (events_of (crp_update_commit (outside:=existing) update_step_blank) start))
    `prefix_of` ["acme-tests/hero-cta/var-1.js"; "acme-tests/hero-cta/var-1.css"].
Proof.
  split; [split; [reflexivity | split; vm_compute; reflexivity]|].
  apply (update_commit_blank_index (outside:=existing) update_step_blank
           (hero (Some true) None) acme start);
    [reflexivity | vm_compute; reflexivity | vm_compute; reflexivity].
Defined.

Lemma view_handlers_all_or_nothing_witness :
  view_handler (outside:=refused) "crp_create_commit"
    = Some (crp_create_commit (outside:=refused)) ∧
  match (crp_create_commit (outside:=refused) create_step start).1 with
  | Returned _ =>
      ∃ calls a,
        events_of (crp_create_commit (outside:=refused) create_step) start
          = calls ++ [ev_ack a] ∧
        Forall is_remote_call calls
  | _ => (crp_create_commit (outside:=refused) create_step start).2 = start
  end.
Proof.
  split; [reflexivity|].
  apply (view_handlers_all_or_nothing (outside:=refused) "crp_create_commit"
           (crp_create_commit (outside:=refused)) create_step start).
  reflexivity.
Defined.

Lemma create_commit_without_variations_witness :
  p_private_metadata create_step_without_count = Some (hero (Some false) None) ∧
  events_of (crp_create_commit (outside:=outage) create_step_without_count) start
    = [ev_ack (ack_update
         {| callback_id := "noop"; private_metadata := None;
            title := "Created ✅"; submit := None; close := "Close";
            blocks :=
              [section "Created *hero-cta* for *acme* with undefined variation(s)."] |})].
Proof.
  split; [reflexivity|].
  eapply events_of_eq.
  - rewrite (create_commit_without_variations (outside:=outage) create_step_without_count
               (hero (Some false) None) start eq_refl I).
    reflexivity.
  - reflexivity.
Defined.

Lemma count_step_then_create_commit_witness :
  (p_private_metadata (count_step "9") = Some (hero (Some false) None) ∧
   CLIENTS (Outside := fresh) !! "acme" = Some acme) ∧
  ∃ dialog (n : nat),
    events_of (crp_collect_variation_count (outside:=fresh) (count_step "9")) start
      = [ev_ack (ack_update dialog)] ∧
    (1 ≤ n ≤ 5)%nat ∧
    (crp_create_commit (outside:=fresh) (payload "V2" dialog ∅) start).1 = Returned ().
Proof.
  split; [split; [reflexivity | vm_compute; reflexivity]|].
  destruct (count_step_then_create_commit (outside:=fresh) (count_step "9")
              (hero (Some false) None) acme start start "V2" ∅)
    as (dialog & n & Hev & Hn & _ & _ & Hret & _);
    [reflexivity | vm_compute; reflexivity |].
  exists dialog, n. split; [exact Hev|]. split; [exact Hn | exact Hret].
Defined.

Lemma choice_dialog_routes_witness :
  let dialog := update_or_create_view "acme" "hero-cta" true "acme-tests/hero-cta" in
  ev_ack (ack_push dialog)
    ∈ events_of (crp_pick_client_test (outside:=existing) (step1 "acme" "hero-cta")) start ∧
  dispatch (outside:=existing) "V1" dialog (Click "choose_update")
    = Some (choose_update (outside:=existing) (payload "V1" dialog ∅)).
Proof.
  intros dialog.
  assert (ev_ack (ack_push dialog)
            ∈ events_of (crp_pick_client_test (outside:=existing) (step1 "acme" "hero-cta"))
                start) as Hin.
  { change (events_of (crp_pick_client_test (outside:=existing) (step1 "acme" "hero-cta"))
              start)
      with [ev_getContent
              {| g_owner := Some "acme-org"; g_repo := Some "site";
                 g_path := "acme-tests/hero-cta"; g_ref := "main" |} (inr data_array);
            ev_ack (ack_push dialog)].
    apply elem_of_cons. right. apply elem_of_cons. left. reflexivity. }
  split; [exact Hin|].
  destruct (choice_dialog_routes (outside:=existing) (step1 "acme" "hero-cta") start dialog
              "V1" Hin) as (st & Hst & _ & Hupdate & _).
  injection Hst as <-. exact Hupdate.
Defined.

Lemma commits_write_under_checked_directory_witness :
  let dialog := update_or_create_view "acme" "hero-cta" true "acme-tests/hero-cta" in
  let req := {| g_owner := Some "acme-org"; g_repo := Some "site";
                g_path := "acme-tests/hero-cta"; g_ref := "main" |} in
  (events_of (crp_pick_client_test (outside:=existing) (step1 "acme" "hero-cta")) start
     = [ev_getContent req (inr data_array); ev_ack (ack_push dialog)] ∧
   p_private_metadata (update_step "2") = Some (hero (Some true) None)) ∧
  Forall (λ wreq, ∃ file, w_path wreq = "acme-tests/hero-cta" +:+ "/var-" +:+ file)
         (writes (events_of (crp_update_commit (outside:=existing) (update_step "2")) start)).
Proof.
  intros dialog req. split; [split; [vm_compute; reflexivity | reflexivity]|].
  apply (commits_write_under_checked_directory (outside:=existing)
           (step1 "acme" "hero-cta") (update_step "2") start start req (inr data_array)
           dialog (hero (Some true) None) (hero (Some true) None));
    [vm_compute; reflexivity | reflexivity | reflexivity | reflexivity | reflexivity].
Defined.

Lemma pick_client_test_empty_field_witness :
  (getStateValue (state step1_blank) "client_block" "client_select" = None ∧
   JS.trim (JS.or_default (getStateValue (state step1_blank) "testname_block" "test_name") "")
     = "") ∧
  ∃ errors,
    crp_pick_client_test (outside:=fresh) step1_blank start =
      (Returned (), {| remote := 0%nat; trace := [ev_ack (ack_errors errors)] |}) ∧
    ("client_block", "Please select a client.") ∈ errors ∧
    ("testname_block", "Please enter a test name.") ∈ errors.
Proof.
  split; [split; vm_compute; reflexivity|].
  destruct (pick_client_test_empty_field (outside:=fresh) step1_blank start)
    as (errors & Hrun & Hclient & Hname & _).
  - left. vm_compute. reflexivity.
  - exists errors. split; [exact Hrun|].
    split; [apply Hclient | apply Hname]; vm_compute; reflexivity.
Defined.

Lemma pick_client_test_unknown_client_witness :
  (getStateValue (state (step1 "globex" "hero-cta")) "client_block" "client_select"
     = Some "globex" ∧
   CLIENTS (Outside := fresh) !! "globex" = None ∧
   "globex" ∉ Object_prototype_names) ∧
  crp_pick_client_test (outside:=fresh) (step1 "globex" "hero-cta") start =
    (Returned (),
     {| remote := 0%nat;
        trace := [ev_ack (ack_errors [("client_block", "Unknown client in configuration.")])] |}).
Proof.
  assert ("globex" ∉ Object_prototype_names) as Hproto.
  { apply (bool_decide_unpack _). vm_compute. exact I. }
  split; [split; [vm_compute; reflexivity | split; [vm_compute; reflexivity | exact Hproto]]|].
  apply (pick_client_test_unknown_client (outside:=fresh) (step1 "globex" "hero-cta")
           "globex" start);
    [vm_compute; reflexivity | vm_compute; discriminate | vm_compute; reflexivity
    | exact Hproto].
Defined.

Lemma offered_client_passes_validation_witness :
  let acme_option := {| Entry.o_text := "acme"; Entry.o_value := "acme" |} in
  (Entry.Object_keys (CLIENTS (Outside := existing)) ["acme"] ∧
   acme_option ∈ Entry.options_of (Entry.crp_view ["acme"]) ∧
   JS.trim " hero-cta " ≠ "") ∧
  ∃ req res a,
    events_of (crp_pick_client_test (outside:=existing)
                 {| id := "V1"; p_callback_id := "crp_pick_client_test";
                    p_private_metadata := None;
                    state := Entry.submitted_state (Entry.crp_view ["acme"])
                               (Some "acme") (Some " hero-cta ") |}) start
      = [ev_getContent req res; ev_ack a] ∧
    g_path req = "acme-tests/hero-cta".
Proof.
  intros acme_option.
  assert (Entry.Object_keys (CLIENTS (Outside := existing)) ["acme"]) as Hkeys.
  { split; [apply NoDup_singleton|]. intros k. rewrite list_elem_of_singleton.
    change (CLIENTS (Outside := existing)) with ({[ "acme" := acme ]} : gmap string client_cfg).
    split.
    - intros ->. exists acme. apply lookup_singleton_eq.
    - intros [c Hc]. apply lookup_singleton_Some in Hc as [<- _]. reflexivity. }
  assert (acme_option ∈ Entry.options_of (Entry.crp_view ["acme"])) as Hin.
  { apply list_elem_of_singleton. reflexivity. }
  assert (JS.trim " hero-cta " ≠ "") as Hname by (vm_compute; discriminate).
  split; [split; [exact Hkeys | split; [exact Hin | exact Hname]]|].
  destruct (offered_client_passes_validation (outside:=existing) ["acme"] acme_option
              " hero-cta " "V1" start Hkeys Hin)
    as (_ & c & req & res & a & Hc & Hev & _ & _ & Hpath & _);
    [discriminate | exact Hname |].
  exists req, res, a. split; [exact Hev|].
  assert (c = acme) as ->.
  { change (CLIENTS (Outside := existing)) with ({[ "acme" := acme ]} : gmap string client_cfg)
      in Hc.
    apply lookup_singleton_Some in Hc as [_ Hc]. symmetry. exact Hc. }
  rewrite Hpath. vm_compute. reflexivity.
Defined.

Lemma empty_client_identifier_is_unusable_witness :
  (Entry.Object_keys (CLIENTS (Outside := anonymous)) [""] ∧
   is_Some (CLIENTS (Outside := anonymous) !! "")) ∧
  ∃ errs,
    events_of (crp_pick_client_test (outside:=anonymous)
                 {| id := "V1"; p_callback_id := "crp_pick_client_test";
                    p_private_metadata := None;
                    state := Entry.submitted_state (Entry.crp_view [""])
                               (Some "") (Some "hero-cta") |}) start
      = [ev_ack (ack_errors errs)] ∧
    ("client_block", "Please select a client.") ∈ errs.
Proof.
  assert (Entry.Object_keys (CLIENTS (Outside := anonymous)) [""]) as Hkeys.
  { split; [apply NoDup_singleton|]. intros k. rewrite list_elem_of_singleton.
    change (CLIENTS (Outside := anonymous)) with ({[ "" := acme ]} : gmap string client_cfg).
    split.
    - intros ->. exists acme. apply lookup_singleton_eq.
    - intros [c Hc]. apply lookup_singleton_Some in Hc as [<- _]. reflexivity. }
  assert (is_Some (CLIENTS (Outside := anonymous) !! "")) as Hsome.
  { exists acme. vm_compute. reflexivity. }
  split; [split; [exact Hkeys | exact Hsome]|].
  destruct (empty_client_identifier_is_unusable (outside:=anonymous) [""] "hero-cta" "V1"
              start Hkeys Hsome) as (_ & errs & Hev & Hin).
  exists errs. split; [exact Hev | exact Hin].
Defined.

Lemma commits_never_repeat_a_call_witness :
  (p_private_metadata (update_step "2") = Some (hero (Some true) None) ∧
   CLIENTS_get (outside:=existing) "acme" = Some (OwnCfg acme)) ∧
  NoDup (g_path <$> reads (events_of (crp_update_commit (outside:=existing) (update_step "2"))
                             start)) ∧
  NoDup (w_path <$> writes (events_of (crp_update_commit (outside:=existing) (update_step "2"))
                              start)).
Proof.
  split; [split; [reflexivity | vm_compute; reflexivity]|].
  apply (commits_never_repeat_a_call (outside:=existing) (update_step "2")
           (hero (Some true) None) (OwnCfg acme) start);
    [reflexivity | vm_compute; reflexivity].
Defined.

Lemma commits_end_the_flow_witness :
  let dialog := updated_view (outside:=existing) (hero (Some true) None) (JS.Num 2) in
  Some dialog
    ∈ shown <$> events_of (crp_update_commit (outside:=existing) (update_step "2")) start ∧
  ∀ a, dispatch (outside:=existing) "V3" dialog a = None.
Proof.
  intros dialog.
  assert (Some dialog
            ∈ shown <$> events_of (crp_update_commit (outside:=existing) (update_step "2"))
                          start) as Hin.
  { assert (last (shown <$> events_of (crp_update_commit (outside:=existing) (update_step "2"))
                              start) = Some (Some dialog)) as Hlast
      by (vm_compute; reflexivity).
    apply last_Some in Hlast as [l' Hl']. rewrite Hl'. apply elem_of_app. right.
    apply list_elem_of_singleton. reflexivity. }
  split; [exact Hin|].
  apply (commits_end_the_flow (outside:=existing) (update_step "2") start dialog).
  right. exact Hin.
Defined.
